(** * AWS AppConfig environments: a model of [environment.ts]

    A shallow embedding of
    [packages/@aws-cdk/aws-appconfig-alpha/lib/environment.ts]: the two import
    paths [Environment.fromEnvironmentArn] and
    [Environment.fromEnvironmentAttributes], the [Environment] constructor with
    its monitor mapping and [createAlarmRole], and the hook-registration
    methods of [EnvironmentBase].

    The file is synchronous construct-tree building code.  Methods are state
    transformers over a [World] (the construct tree and the environments each
    application has been told about) that either return or throw.  The CDK
    core the file calls into ([Stack], [Resource], [Names], [CfnEnvironment],
    [iam.Role], [ExtensibleBase]) is not part of the file: it is the
    [Framework] interface below, and the statements hold for every
    implementation of it. *)

From Stdlib Require Import String Ascii List Arith Lia Bool.
From Stdlib Require Import DecimalString DecimalNat FinFun ListDec.
Import ListNotations.

Local Open Scope string_scope.
Local Open Scope list_scope.

Local Infix "+++" := String.append (right associativity, at level 60).

(** ** JavaScript values the file relies on *)

(** What a [throw] carries.  The file itself only throws [new Error(message)];
    reading a property of [undefined] raises a [TypeError], whose message the
    language leaves to the engine, so none is recorded. *)
Inductive exn : Type :=
| Error (message : string)
| TypeError.

Inductive result (A : Type) : Type :=
| Ok (value : A)
| Throw (e : exn).

Arguments Ok {A} value.
Arguments Throw {A} e.

(** [!s] for a value of type [string | undefined]: [undefined] and the empty
    string are the falsy ones. *)
Definition falsy (v : option string) : bool :=
  match v with
  | None => true
  | Some s => (s =? "")%string
  end.

(** [s.split(sep)] for a one-character separator. *)
Fixpoint split (sep : ascii) (s : string) : list string :=
  match s with
  | EmptyString => [""]
  | String c rest =>
      if Ascii.eqb c sep then "" :: split sep rest
      else match split sep rest with
           | [] => [String c ""]
           | part :: parts => String c part :: parts
           end
  end.

(** The template literal [`${index}`] of a non-negative integer. *)
Definition string_of_index (index : nat) : string :=
  NilEmpty.string_of_uint (Nat.to_uint index).

Definition slash : ascii := "/"%char.

(** ** Data passed across the file's interfaces *)

(** A construct is known by the ids on the way from the root to it. *)
Definition Path : Type := list string.

Inductive ArnFormat : Type :=
| NO_RESOURCE_NAME
| COLON_RESOURCE_NAME
| SLASH_RESOURCE_NAME
| SLASH_RESOURCE_SLASH_RESOURCE_NAME.

Module ArnComponents.
Record t : Type := mk {
  partition : option string;
  service : string;
  region : option string;
  account : option string;
  resource : string;
  resourceName : option string
}.
End ArnComponents.

(** [cloudwatch.IAlarm] and [iam.IRole]: the file reads one property of each. *)
Module IAlarm.
Record t : Type := mk { alarmArn : string }.
End IAlarm.

Module IRole.
Record t : Type := mk { roleArn : string }.
End IRole.

Module Monitor.
Record t : Type := mk {
  alarm : IAlarm.t;
  alarmRole : option IRole.t
}.
End Monitor.

Module IApplication.
Record t : Type := mk { applicationId : string }.
End IApplication.

Module EnvironmentAttributes.
Record t : Type := mk {
  application : IApplication.t;
  environmentId : string;
  name : option string;
  description : option string;
  monitors : option (list Monitor.t)
}.
End EnvironmentAttributes.

(** [EnvironmentProps extends EnvironmentOptions]. *)
Module EnvironmentProps.
Record t : Type := mk {
  name : option string;
  description : option string;
  monitors : option (list Monitor.t);
  application : IApplication.t
}.
End EnvironmentProps.

(** The second argument of [Names.uniqueResourceName]. *)
Module UniqueResourceNameOptions.
Record t : Type := mk {
  maxLength : nat;
  separator : string
}.
End UniqueResourceNameOptions.

(** The third argument of the [Resource] constructor. *)
Module ResourceProps.
Record t : Type := mk {
  physicalName : option string;
  environmentFromArn : option string
}.
End ResourceProps.

(** One element of [CfnEnvironment]'s [monitors]. *)
Module MonitorsProperty.
Record t : Type := mk {
  alarmArn : string;
  alarmRoleArn : string
}.
End MonitorsProperty.

(** The descriptor handed to [new CfnEnvironment]. *)
Module CfnEnvironmentProps.
Record t : Type := mk {
  applicationId : string;
  name : string;
  description : option string;
  monitors : option (list MonitorsProperty.t)
}.
End CfnEnvironmentProps.

Inductive Effect : Type := ALLOW | DENY.

Module PolicyStatement.
Record t : Type := mk {
  effect : Effect;
  actions : list string;
  resources : list string
}.
End PolicyStatement.

Module PolicyDocument.
Record t : Type := mk { statements : list PolicyStatement.t }.
End PolicyDocument.

Inductive Principal : Type :=
| ServicePrincipal (service : string).

Inductive PhysicalName : Type :=
| GENERATE_IF_NEEDED.

Module RoleProps.
Record t : Type := mk {
  roleName : PhysicalName;
  assumedBy : Principal;
  inlinePolicies : list (string * PolicyDocument.t)
}.
End RoleProps.

(** The action points, as the doc comments of [IEnvironment] name them. *)
Inductive ActionPoint : Type :=
| PRE_CREATE_HOSTED_CONFIGURATION_VERSION
| PRE_START_DEPLOYMENT
| ON_DEPLOYMENT_START
| ON_DEPLOYMENT_STEP
| ON_DEPLOYMENT_BAKING
| ON_DEPLOYMENT_COMPLETE
| ON_DEPLOYMENT_ROLLED_BACK.

(** A node of the construct tree: where it was created ([scope], [id]), what
    it was created with, and for the two resources whose attributes the file
    reads back, the attribute ([ref] of the [CfnEnvironment], [roleArn] of the
    role). *)
Inductive Construct : Type :=
| ResourceNode (scope : Path) (id : string) (props : ResourceProps.t)
| CfnEnvironmentNode (scope : Path) (id : string)
    (props : CfnEnvironmentProps.t) (ref : string)
| RoleNode (scope : Path) (id : string) (props : RoleProps.t)
    (roleArn : string).

(** ** The CDK core, as an interface

    None of these is defined in [environment.ts].  A constructor of the core
    may throw, and what it answers may depend on the tree built so far, so
    each takes the tree and returns a [result]. *)
Class Framework : Type := {
  (** [Stack.of(scope).splitArn(arn, arnFormat)] *)
  splitArn : Path -> string -> ArnFormat -> result ArnComponents.t;
  (** [Stack.of(scope).formatArn(components)] *)
  formatArn : Path -> ArnComponents.t -> result string;
  (** [Names.uniqueResourceName(construct, options)] *)
  uniqueResourceName : Path -> UniqueResourceNameOptions.t -> result string;
  (** the [Resource] base constructor, [super(scope, id, props)] *)
  Resource_new :
    list Construct -> Path -> string -> ResourceProps.t -> result unit;
  (** [new CfnEnvironment(scope, id, props)], answering its [ref] *)
  CfnEnvironment_new :
    list Construct -> Path -> string -> CfnEnvironmentProps.t -> result string;
  (** [new iam.Role(scope, id, props)], answering its [roleArn] *)
  Role_new :
    list Construct -> Path -> string -> RoleProps.t -> result string;
  (** the types of [./extension] *)
  IEventDestination : Type;
  ExtensionOptions : Type;
  IExtension : Type;
  ExtensibleBase : Type;
  (** [new ExtensibleBase(scope, resourceArn, resourceName)] *)
  ExtensibleBase_new : Path -> string -> string -> ExtensibleBase;
  (** the methods of [ExtensibleBase]; each may throw and otherwise leaves the
      collaborator in a new state (the hooks it keeps and whatever it builds
      for them) *)
  ExtensibleBase_on :
    ActionPoint -> IEventDestination -> option ExtensionOptions ->
    ExtensibleBase -> result ExtensibleBase;
  ExtensibleBase_preCreateHostedConfigurationVersion :
    IEventDestination -> option ExtensionOptions ->
    ExtensibleBase -> result ExtensibleBase;
  ExtensibleBase_preStartDeployment :
    IEventDestination -> option ExtensionOptions ->
    ExtensibleBase -> result ExtensibleBase;
  ExtensibleBase_onDeploymentStart :
    IEventDestination -> option ExtensionOptions ->
    ExtensibleBase -> result ExtensibleBase;
  ExtensibleBase_onDeploymentStep :
    IEventDestination -> option ExtensionOptions ->
    ExtensibleBase -> result ExtensibleBase;
  ExtensibleBase_onDeploymentBaking :
    IEventDestination -> option ExtensionOptions ->
    ExtensibleBase -> result ExtensibleBase;
  ExtensibleBase_onDeploymentComplete :
    IEventDestination -> option ExtensionOptions ->
    ExtensibleBase -> result ExtensibleBase;
  ExtensibleBase_onDeploymentRolledBack :
    IEventDestination -> option ExtensionOptions ->
    ExtensibleBase -> result ExtensibleBase;
  ExtensibleBase_addExtension :
    IExtension -> ExtensibleBase -> result ExtensibleBase
}.

Section Model.

Context {F : Framework}.

(** An environment object: the members of [IEnvironment], and the
    [extensible] member of [EnvironmentBase], which is declared with a
    definite-assignment [!] and is [undefined] until a constructor assigns
    it. *)
Record Environment : Type := mkEnvironment {
  application : option IApplication.t;
  applicationId : string;
  name : option string;
  description : option string;
  monitors : option (list Monitor.t);
  environmentId : string;
  environmentArn : string;
  extensible : option ExtensibleBase
}.

(** The state the file acts on: the construct tree in creation order, and the
    environments handed to [addExistingEnvironment], each with the
    application it was handed to and as it was when handed over, in call
    order. *)
Record World : Type := mkWorld {
  tree : list Construct;
  environments : list (IApplication.t * Environment)
}.

(** A method body: from a world to a returned value or a thrown exception,
    and the world it leaves behind either way. *)
Definition M (A : Type) : Type := World -> result A * World.

Definition ret {A : Type} (a : A) : M A := fun w => (Ok a, w).

Definition throw {A : Type} (e : exn) : M A := fun w => (Throw e, w).

Definition bind {A B : Type} (m : M A) (k : A -> M B) : M B :=
  fun w =>
    match m w with
    | (Ok a, w') => k a w'
    | (Throw e, w') => (Throw e, w')
    end.

(** A call into the core that touches no construct. *)
Definition call {A : Type} (r : result A) : M A := fun w => (r, w).

(** [new C(scope, id, props)] for a construct class of the core: the core
    decides, from the tree so far, whether the constructor returns and with
    which attribute; when it returns the node is part of the tree. *)
Definition construct {A : Type} (answer : list Construct -> result A)
    (node : A -> Construct) : M A :=
  fun w =>
    match answer (tree w) with
    | Ok a => (Ok a, mkWorld (tree w ++ [node a]) (environments w))
    | Throw e => (Throw e, w)
    end.

End Model.

Notation "x <- m ;; k" := (bind m (fun x => k))
  (at level 61, m at next level, right associativity).

Section Methods.

Context {F : Framework}.

(** [v || alt] for [v : string | undefined]; [alt] runs only when [v] is
    falsy. *)
Definition or_else (v : option string) (alt : M string) : M string :=
  match v with
  | Some s => if falsy (Some s) then alt else ret s
  | None => alt
  end.

(** [`${v}`] for [v : string | undefined]. *)
Definition template_of (v : option string) : string :=
  match v with
  | Some s => s
  | None => "undefined"
  end.

(** [array.map((x, index) => f(x, index))] with a callback that acts on the
    world: elements are visited in order, the index going up from [index]. *)
Fixpoint map_from {A B : Type} (f : A -> nat -> M B) (l : list A)
    (index : nat) : M (list B) :=
  match l with
  | [] => ret []
  | x :: rest =>
      y <- f x index ;;
      ys <- map_from f rest (S index) ;;
      ret (y :: ys)
  end.

(** *** [EnvironmentBase] *)

(** [this.extensible.method(...)]: a [TypeError] when [extensible] was never
    assigned; otherwise the collaborator's outcome, the environment holding
    the collaborator in its new state. *)
Definition on_extensible (this : Environment)
    (method : ExtensibleBase -> result ExtensibleBase) : result Environment :=
  match extensible this with
  | None => Throw TypeError
  | Some x =>
      match method x with
      | Ok x' =>
          Ok (mkEnvironment (application this) (applicationId this)
                (name this) (description this) (monitors this)
                (environmentId this) (environmentArn this) (Some x'))
      | Throw e => Throw e
      end
  end.

Definition on (this : Environment) (actionPoint : ActionPoint)
    (eventDestination : IEventDestination)
    (options : option ExtensionOptions) : result Environment :=
  on_extensible this (ExtensibleBase_on actionPoint eventDestination options).

Definition preCreateHostedConfigurationVersion (this : Environment)
    (eventDestination : IEventDestination)
    (options : option ExtensionOptions) : result Environment :=
  on_extensible this
    (ExtensibleBase_preCreateHostedConfigurationVersion eventDestination options).

Definition preStartDeployment (this : Environment)
    (eventDestination : IEventDestination)
    (options : option ExtensionOptions) : result Environment :=
  on_extensible this
    (ExtensibleBase_preStartDeployment eventDestination options).

Definition onDeploymentStart (this : Environment)
    (eventDestination : IEventDestination)
    (options : option ExtensionOptions) : result Environment :=
  on_extensible this
    (ExtensibleBase_onDeploymentStart eventDestination options).

Definition onDeploymentStep (this : Environment)
    (eventDestination : IEventDestination)
    (options : option ExtensionOptions) : result Environment :=
  on_extensible this
    (ExtensibleBase_onDeploymentStep eventDestination options).

Definition onDeploymentBaking (this : Environment)
    (eventDestination : IEventDestination)
    (options : option ExtensionOptions) : result Environment :=
  on_extensible this
    (ExtensibleBase_onDeploymentBaking eventDestination options).

Definition onDeploymentComplete (this : Environment)
    (eventDestination : IEventDestination)
    (options : option ExtensionOptions) : result Environment :=
  on_extensible this
    (ExtensibleBase_onDeploymentComplete eventDestination options).

Definition onDeploymentRolledBack (this : Environment)
    (eventDestination : IEventDestination)
    (options : option ExtensionOptions) : result Environment :=
  on_extensible this
    (ExtensibleBase_onDeploymentRolledBack eventDestination options).

Definition addExtension (this : Environment) (extension : IExtension)
    : result Environment :=
  on_extensible this (ExtensibleBase_addExtension extension).

(** *** [Environment.fromEnvironmentArn] *)

Definition missing_resource_name_message (resourceName : option string)
    : string :=
  "Missing required /$/{applicationId}/environment//$/{environmentId} from environment ARN: "
  +++ template_of resourceName.

Definition missing_parameters_message : string :=
  "Missing required parameters for environment ARN: format should be /$/{applicationId}/environment//$/{environmentId}".

(** [new Import(scope, id, { environmentFromArn })], for either [Import]
    class: the class adds fields only, so this is the [Resource]
    constructor. *)
Definition new_Import (scope : Path) (id : string) (environmentFromArn : string)
    : M unit :=
  let props := ResourceProps.mk None (Some environmentFromArn) in
  construct (fun t => Resource_new t scope id props)
            (fun _ => ResourceNode scope id props).

Definition fromEnvironmentArn (scope : Path) (id : string)
    (environmentArn : string) : M Environment :=
  parsedArn <- call (splitArn scope environmentArn SLASH_RESOURCE_NAME) ;;
  match ArnComponents.resourceName parsedArn with
  | None => throw (Error (missing_resource_name_message None))
  | Some rn =>
      if falsy (Some rn) then
        throw (Error (missing_resource_name_message (Some rn)))
      else
        let resourceName := split slash rn in
        if negb (List.length resourceName =? 3)%nat
           || falsy (nth_error resourceName 0)
           || falsy (nth_error resourceName 2)
        then throw (Error missing_parameters_message)
        else
          let applicationId := nth 0 resourceName "" in
          let environmentId := nth 2 resourceName "" in
          _ <- new_Import scope id environmentArn ;;
          ret (mkEnvironment None applicationId None None None
                 environmentId environmentArn None)
  end.

(** *** [Environment.fromEnvironmentAttributes] *)

(** The components both [formatArn] calls of the file pass. *)
Definition environmentArnComponents (applicationId environmentId : string)
    : ArnComponents.t :=
  ArnComponents.mk None "appconfig" None None "application"
    (Some (applicationId +++ "/environment/" +++ environmentId)).

Definition fromEnvironmentAttributes (scope : Path) (id : string)
    (attr : EnvironmentAttributes.t) : M Environment :=
  let applicationId :=
    IApplication.applicationId (EnvironmentAttributes.application attr) in
  let environmentId := EnvironmentAttributes.environmentId attr in
  environmentArn <-
    call (formatArn scope (environmentArnComponents applicationId environmentId)) ;;
  _ <- new_Import scope id environmentArn ;;
  ret (mkEnvironment (Some (EnvironmentAttributes.application attr))
         (IApplication.applicationId (EnvironmentAttributes.application attr))
         (EnvironmentAttributes.name attr)
         (EnvironmentAttributes.description attr)
         (EnvironmentAttributes.monitors attr)
         environmentId environmentArn None).

(** *** The [Environment] constructor *)

(** [this.createAlarmRole(alarmArn, index)], [this] being the construct at
    path [this]. *)
Definition createAlarmRole (this : Path) (alarmArn : string) (index : nat)
    : M IRole.t :=
  let policy :=
    PolicyStatement.mk ALLOW ["cloudwatch:DescribeAlarms"] [alarmArn] in
  let document := PolicyDocument.mk [policy] in
  let props :=
    RoleProps.mk GENERATE_IF_NEEDED (ServicePrincipal "appconfig.amazonaws.com")
      [("AllowAppConfigMonitorAlarmPolicy", document)] in
  let id := "Role" +++ string_of_index index in
  roleArn <- construct (fun t => Role_new t this id props)
                       (fun roleArn => RoleNode this id props roleArn) ;;
  ret (IRole.mk roleArn).

(** The callback of [this.monitors?.map(...)]. *)
Definition monitorsProperty (this : Path) (monitor : Monitor.t) (index : nat)
    : M MonitorsProperty.t :=
  let alarmArn := IAlarm.alarmArn (Monitor.alarm monitor) in
  alarmRoleArn <-
    or_else (option_map IRole.roleArn (Monitor.alarmRole monitor))
      (role <- createAlarmRole this alarmArn index ;;
       ret (IRole.roleArn role)) ;;
  ret (MonitorsProperty.mk alarmArn alarmRoleArn).

(** Modelled from the spec: [IApplication.addExistingEnvironment], declared in
    [./application], which is not among the sources.  The spec describes it as
    an append-to-list side effect on the parent application; it returns
    nothing and raises nothing. *)
Definition addExistingEnvironment (application : IApplication.t)
    (environment : Environment) : M unit :=
  fun w => (Ok tt, mkWorld (tree w) (environments w ++ [(application, environment)])).

(** [new Environment(scope, id, props)].  [this] is the construct being
    built, at path [scope ++ [id]]. *)
Definition Environment_new (scope : Path) (id : string)
    (props : EnvironmentProps.t) : M Environment :=
  let this := scope ++ [id] in
  let super_props := ResourceProps.mk (EnvironmentProps.name props) None in
  _ <- construct (fun t => Resource_new t scope id super_props)
                 (fun _ => ResourceNode scope id super_props) ;;
  name <- or_else (EnvironmentProps.name props)
            (call (uniqueResourceName this
                     (UniqueResourceNameOptions.mk 64 "-"))) ;;
  let application := EnvironmentProps.application props in
  let applicationId := IApplication.applicationId application in
  let description := EnvironmentProps.description props in
  let monitors := EnvironmentProps.monitors props in
  cfn_monitors <-
    match monitors with
    | Some l => l' <- map_from (monitorsProperty this) l 0 ;; ret (Some l')
    | None => ret None
    end ;;
  let cfn_props :=
    CfnEnvironmentProps.mk applicationId name description cfn_monitors in
  ref <- construct (fun t => CfnEnvironment_new t this "Resource" cfn_props)
                   (fun ref => CfnEnvironmentNode this "Resource" cfn_props ref) ;;
  let environmentId := ref in
  environmentArn <-
    call (formatArn this (environmentArnComponents applicationId environmentId)) ;;
  let extensible := ExtensibleBase_new scope environmentArn name in
  let environment :=
    mkEnvironment (Some application) applicationId (Some name) description
      monitors environmentId environmentArn (Some extensible) in
  _ <- addExistingEnvironment application environment ;;
  ret environment.

End Methods.

(** ** A reference core

    An implementation of [Framework] that follows the spec's description of
    the collaborators.  The statements below are proved for every
    [Framework]; this one is where they are evaluated on concrete inputs. *)

Module Cdk.

(** The deployment scope's context: the id of the stack at the root of the
    tree, and the partition, region and account ARNs are formatted under. *)
Record ScopeContext : Type := mkScopeContext {
  stackId : string;
  partition : string;
  region : string;
  account : string
}.

(** Modelled from the spec: [Stack.of(scope)], of the CDK core, which is not
    among the sources.  A construct has scope context when it lives under the
    stack; the spec names a missing scope context as the one failure of the
    formatting primitive. *)
Definition stackOf (ctx : ScopeContext) (scope : Path) : result ScopeContext :=
  match scope with
  | root :: _ =>
      if (root =? stackId ctx)%string then Ok ctx
      else Throw (Error "No stack could be identified for the construct")
  | [] => Throw (Error "No stack could be identified for the construct")
  end.

Definition or_default (v : option string) (d : string) : string :=
  match v with
  | Some s => s
  | None => d
  end.

(** Modelled from the spec: [Stack.formatArn], of the CDK core, which is not
    among the sources.  The spec's ARN format is
    [<partition>:<service>:<region>:<account>:<resource>/<resourceName>],
    partition, region and account taken from the scope context when the
    components leave them out, behind the [arn] scheme its examples show. *)
Definition formatArn (ctx : ScopeContext) (scope : Path)
    (components : ArnComponents.t) : result string :=
  match stackOf ctx scope with
  | Throw e => Throw e
  | Ok stack =>
      Ok ("arn:"
          +++ or_default (ArnComponents.partition components) (partition stack)
          +++ ":" +++ ArnComponents.service components
          +++ ":"
          +++ or_default (ArnComponents.region components) (region stack)
          +++ ":"
          +++ or_default (ArnComponents.account components) (account stack)
          +++ ":" +++ ArnComponents.resource components
          +++ match ArnComponents.resourceName components with
              | Some resourceName => "/" +++ resourceName
              | None => ""
              end)
  end.

(** Modelled from the spec: [Stack.splitArn], of the CDK core, which is not
    among the sources: the inverse reading of the format above.  For the
    slash formats the resource part is cut at its first [/]; the resource
    name is absent when there is no [/]. *)
Definition splitArn (ctx : ScopeContext) (scope : Path) (arn : string)
    (arnFormat : ArnFormat) : result ArnComponents.t :=
  match stackOf ctx scope with
  | Throw e => Throw e
  | Ok _ =>
      match split ":"%char arn with
      | "arn" :: partition :: service :: region :: account :: part :: parts =>
          let path := String.concat ":" (part :: parts) in
          let whole :=
            ArnComponents.mk (Some partition) service (Some region)
              (Some account) path None in
          match arnFormat with
          | SLASH_RESOURCE_NAME | SLASH_RESOURCE_SLASH_RESOURCE_NAME =>
              match split slash path with
              | resource :: name :: names =>
                  Ok (ArnComponents.mk (Some partition) service (Some region)
                        (Some account) resource
                        (Some (String.concat "/" (name :: names))))
              | _ => Ok whole
              end
          | NO_RESOURCE_NAME | COLON_RESOURCE_NAME => Ok whole
          end
      | _ => Throw (Error "ARNs must start with arn: and have at least 6 components")
      end
  end.

(** Modelled from the spec: [Names.uniqueResourceName], of the CDK core,
    which is not among the sources.  The spec: a name made of the
    scope-derived path segments, joined by the separator and truncated to the
    maximal length. *)
Definition uniqueResourceName (path : Path)
    (options : UniqueResourceNameOptions.t) : result string :=
  Ok (substring 0 (UniqueResourceNameOptions.maxLength options)
        (String.concat (UniqueResourceNameOptions.separator options) path)).

(** An attribute the resource engine assigns at deployment: until then a
    placeholder that names the construct and the attribute. *)
Definition token (path : Path) (attribute : string) : string :=
  "${Token[" +++ String.concat "." path +++ "." +++ attribute +++ "]}".

(** Modelled from the spec: the [Resource] base constructor of the CDK core,
    which is not among the sources.  The spec has the resource engine surface
    its failures at deployment, not at construction: the constructor
    returns. *)
Definition Resource_new (t : list Construct) (scope : Path) (id : string)
    (props : ResourceProps.t) : result unit :=
  Ok tt.

(** Modelled from the spec: the [CfnEnvironment] constructor of the CDK core,
    which is not among the sources.  The sink accepts the descriptor and
    answers an assigned reference, usable as the environment's id. *)
Definition CfnEnvironment_new (t : list Construct) (scope : Path) (id : string)
    (props : CfnEnvironmentProps.t) : result string :=
  Ok (token (scope ++ [id]) "Ref").

(** Modelled from the spec: the [iam.Role] constructor of the CDK core, which
    is not among the sources.  The collaborator accepts the principal, the
    inline policy and the name request and answers a role exposing an ARN. *)
Definition Role_new (t : list Construct) (scope : Path) (id : string)
    (props : RoleProps.t) : result string :=
  Ok (token (scope ++ [id]) "Arn").

(** Modelled from the spec: [ExtensibleBase], of [./extension], which is not
    among the sources.  It is constructed with the resource's ARN and name and
    keeps the hooks registered on the resource; each named hook registration
    is the generic one with its action point held constant. *)
Record ExtensibleBase : Type := mkExtensibleBase {
  scope : Path;
  resourceArn : string;
  resourceName : string;
  hooks : list (ActionPoint * string * option string);
  extensions : list string
}.

(** Modelled from the spec: [new ExtensibleBase(scope, resourceArn,
    resourceName)], no hook registered yet. *)
Definition ExtensibleBase_new (scope : Path) (resourceArn resourceName : string)
    : ExtensibleBase :=
  mkExtensibleBase scope resourceArn resourceName [] [].

(** Modelled from the spec: [ExtensibleBase.on], the generic hook
    registration: the hook is kept with its action point. *)
Definition on (actionPoint : ActionPoint) (eventDestination : string)
    (options : option string) (this : ExtensibleBase) : result ExtensibleBase :=
  Ok (mkExtensibleBase (scope this) (resourceArn this) (resourceName this)
        (hooks this ++ [(actionPoint, eventDestination, options)])
        (extensions this)).

(** Modelled from the spec: [ExtensibleBase.addExtension]: the extension is
    kept as associated with the resource. *)
Definition addExtension (extension : string) (this : ExtensibleBase)
    : result ExtensibleBase :=
  Ok (mkExtensibleBase (scope this) (resourceArn this) (resourceName this)
        (hooks this) (extensions this ++ [extension])).

(** Modelled from the spec: the core as a whole, under a scope context.
    Event destinations, options and extensions are opaque to the file and
    stand as strings; each named hook registration is [on] at its action
    point. *)
Definition framework (ctx : ScopeContext) : Framework :=
  Build_Framework
    (splitArn ctx) (formatArn ctx) uniqueResourceName
    Resource_new CfnEnvironment_new Role_new
    string string string ExtensibleBase ExtensibleBase_new
    on
    (on PRE_CREATE_HOSTED_CONFIGURATION_VERSION)
    (on PRE_START_DEPLOYMENT)
    (on ON_DEPLOYMENT_START)
    (on ON_DEPLOYMENT_STEP)
    (on ON_DEPLOYMENT_BAKING)
    (on ON_DEPLOYMENT_COMPLETE)
    (on ON_DEPLOYMENT_ROLLED_BACK)
    addExtension.

(** The context the examples run in. *)
Definition us_east_1 : ScopeContext :=
  mkScopeContext "Stack" "aws" "us-east-1" "123456789012".

End Cdk.

(** ** Importing by ARN *)

Section ImportByArn.

Context {F : Framework}.

(** The inputs the spec has [fromEnvironmentArn] refuse, in the spec's words:
    the resource name is absent, or its split on [/] has a number of parts
    other than three, or an empty first or third part. *)
Definition malformed (parsedArn : ArnComponents.t) : Prop :=
  match ArnComponents.resourceName parsedArn with
  | None => True
  | Some resourceName =>
      let parts := split slash resourceName in
      List.length parts <> 3 \/ nth 0 parts "" = "" \/ nth 2 parts "" = ""
  end.


(** What [fromEnvironmentArn] returns when it throws nothing. *)
Definition importedByArn (applicationId environmentId environmentArn : string)
    : Environment :=
  mkEnvironment None applicationId None None None
    environmentId environmentArn None.

End ImportByArn.


(** ** The round trip through both import paths *)

Section RoundTrip.

Context {F : Framework}.

(** [c] occurs in [s]. *)
Fixpoint occurs (c : ascii) (s : string) : bool :=
  match s with
  | EmptyString => false
  | String c' rest => Ascii.eqb c' c || occurs c rest
  end.

(** Import by attributes, then import the ARN that gave by ARN, and read the
    two ids off the second environment. *)
Definition roundTrip (scope : Path) (id id' : string)
    (appId envId : string) : M (string * string) :=
  byAttributes <-
    fromEnvironmentAttributes scope id
      (EnvironmentAttributes.mk (IApplication.mk appId) envId None None None) ;;
  byArn <- fromEnvironmentArn scope id' (environmentArn byAttributes) ;;
  ret (applicationId byArn, environmentId byArn).

End RoundTrip.

(** ** The constructor, in the words of the spec *)

Section Constructor.

Context {F : Framework}.

(** The role the spec asks for when a monitor brings none: assumable by the
    AppConfig service principal only, with one inline policy of one statement
    that allows [cloudwatch:DescribeAlarms] on the monitor's alarm. *)
Definition alarmRoleProps (alarmArn : string) : RoleProps.t :=
  RoleProps.mk GENERATE_IF_NEEDED
    (ServicePrincipal "appconfig.amazonaws.com")
    [("AllowAppConfigMonitorAlarmPolicy",
      PolicyDocument.mk
        [PolicyStatement.mk ALLOW ["cloudwatch:DescribeAlarms"] [alarmArn]])].

(** [monitor.alarmRole?.roleArn] *)
Definition givenRoleArn (monitor : Monitor.t) : option string :=
  option_map IRole.roleArn (Monitor.alarmRole monitor).

(** The id of the role construct of the monitor at [index]. *)
Definition roleId (index : nat) : string := "Role" +++ string_of_index index.

(** The IAM role collaborator hands out ARNs that are not the empty
    string. *)
Definition role_arns_nonempty : Prop :=
  forall (t : list Construct) (scope : Path) (id : string)
         (props : RoleProps.t) (roleArn : string),
    Role_new t scope id props = Ok roleArn -> roleArn <> "".


(** The named hook registration of [EnvironmentBase] for an action point. *)
Definition wrapper (actionPoint : ActionPoint)
    : Environment -> IEventDestination -> option ExtensionOptions ->
      result Environment :=
  match actionPoint with
  | PRE_CREATE_HOSTED_CONFIGURATION_VERSION =>
      preCreateHostedConfigurationVersion
  | PRE_START_DEPLOYMENT => preStartDeployment
  | ON_DEPLOYMENT_START => onDeploymentStart
  | ON_DEPLOYMENT_STEP => onDeploymentStep
  | ON_DEPLOYMENT_BAKING => onDeploymentBaking
  | ON_DEPLOYMENT_COMPLETE => onDeploymentComplete
  | ON_DEPLOYMENT_ROLLED_BACK => onDeploymentRolledBack
  end.

(** The named hook registration of [ExtensibleBase] for an action point. *)
Definition ExtensibleBase_wrapper (actionPoint : ActionPoint)
    : IEventDestination -> option ExtensionOptions ->
      ExtensibleBase -> result ExtensibleBase :=
  match actionPoint with
  | PRE_CREATE_HOSTED_CONFIGURATION_VERSION =>
      ExtensibleBase_preCreateHostedConfigurationVersion
  | PRE_START_DEPLOYMENT => ExtensibleBase_preStartDeployment
  | ON_DEPLOYMENT_START => ExtensibleBase_onDeploymentStart
  | ON_DEPLOYMENT_STEP => ExtensibleBase_onDeploymentStep
  | ON_DEPLOYMENT_BAKING => ExtensibleBase_onDeploymentBaking
  | ON_DEPLOYMENT_COMPLETE => ExtensibleBase_onDeploymentComplete
  | ON_DEPLOYMENT_ROLLED_BACK => ExtensibleBase_onDeploymentRolledBack
  end.

(** The collaborator's named hook registrations are its generic one with the
    action point held constant. *)
Definition wrappers_fix_action_point : Prop :=
  forall (actionPoint : ActionPoint) (eventDestination : IEventDestination)
         (options : option ExtensionOptions) (x : ExtensibleBase),
    ExtensibleBase_wrapper actionPoint eventDestination options x
    = ExtensibleBase_on actionPoint eventDestination options x.

(** What the monitor mapping may add to the tree: the role of a monitor of
    [l] whose role ARN is falsy, under the id of its position, positions
    counted from [k]. *)
Definition synthesized_role (this : Path) (l : list Monitor.t) (k : nat)
    (node : Construct) : Prop :=
  exists (j : nat) (monitor : Monitor.t) (roleArn : string),
    nth_error l j = Some monitor
    /\ falsy (givenRoleArn monitor) = true
    /\ node = RoleNode this (roleId (k + j))
               (alarmRoleProps (IAlarm.alarmArn (Monitor.alarm monitor)))
               roleArn.

(** What the descriptor says of the monitor at position [j]: its alarm, and
    either the role ARN it brought or the ARN of a role among [added], made
    for its alarm under the id of its position. *)
Definition entry_of (this : Path) (k : nat) (added : list Construct)
    (j : nat) (monitor : Monitor.t) (entry : MonitorsProperty.t) : Prop :=
  let alarmArn := IAlarm.alarmArn (Monitor.alarm monitor) in
  MonitorsProperty.alarmArn entry = alarmArn
  /\ (falsy (givenRoleArn monitor) = false ->
      givenRoleArn monitor = Some (MonitorsProperty.alarmRoleArn entry))
  /\ (falsy (givenRoleArn monitor) = true ->
      In (RoleNode this (roleId (k + j)) (alarmRoleProps alarmArn)
            (MonitorsProperty.alarmRoleArn entry)) added
      /\ exists t : list Construct,
           Role_new t this (roleId (k + j)) (alarmRoleProps alarmArn)
           = Ok (MonitorsProperty.alarmRoleArn entry)).

(** [props.name || Names.uniqueResourceName(this, ...)], as the core's answer
    decides it. *)
Definition resolvedName (this : Path) (props : EnvironmentProps.t)
    : result string :=
  match EnvironmentProps.name props with
  | Some s =>
      if (s =? "")%string
      then uniqueResourceName this (UniqueResourceNameOptions.mk 64 "-")
      else Ok s
  | None => uniqueResourceName this (UniqueResourceNameOptions.mk 64 "-")
  end.

End Constructor.

(** ** Strings of bounded length

    There are finitely many strings of at most [n] characters, and
    infinitely many construct ids. *)

Definition all_ascii : list ascii := map ascii_of_nat (seq 0 256).

Fixpoint all_strings (n : nat) : list string :=
  match n with
  | 0 => [""]
  | S n' =>
      "" :: flat_map (fun s => map (fun a => String a s) all_ascii)
              (all_strings n')
  end.

(** The id made of [k] times the letter [a]. *)
Fixpoint repeated (k : nat) : string :=
  match k with
  | 0 => ""
  | S k' => String "a" (repeated k')
  end.


(** ** Inputs the statements are evaluated on *)

Module Sample.

Definition cdk : Framework := Cdk.framework Cdk.us_east_1.

(** Nothing built yet. *)
Definition empty : @World cdk := mkWorld [] [].

Definition arn : string :=
  "arn:aws:appconfig:us-west-2:123456789012:application/abc123/environment/def456".

Definition parsed : ArnComponents.t :=
  ArnComponents.mk (Some "aws") "appconfig" (Some "us-west-2")
    (Some "123456789012") "application" (Some "abc123/environment/def456").

(** The same environment under another middle part. *)
Definition arn_other_middle : string :=
  "arn:aws:appconfig:us-west-2:123456789012:application/abc123//def456".

Definition parsed_other_middle : ArnComponents.t :=
  ArnComponents.mk (Some "aws") "appconfig" (Some "us-west-2")
    (Some "123456789012") "application" (Some "abc123//def456").

(** An application ARN: two parts short of an environment's. *)
Definition arn_short : string :=
  "arn:aws:appconfig:us-west-2:123456789012:application/abc123".

Definition parsed_short : ArnComponents.t :=
  ArnComponents.mk (Some "aws") "appconfig" (Some "us-west-2")
    (Some "123456789012") "application" (Some "abc123").

End Sample.


(** ** Constructions the statements are evaluated on *)

Module Built.

Import Sample.

Definition app1 : IApplication.t := IApplication.mk "app1".

Definition alarm1 : IAlarm.t :=
  IAlarm.mk "arn:aws:cloudwatch:us-east-1:123456789012:alarm:A1".

Definition alarm2 : IAlarm.t :=
  IAlarm.mk "arn:aws:cloudwatch:us-east-1:123456789012:alarm:A2".

Definition role2 : IRole.t :=
  IRole.mk "arn:aws:iam::123456789012:role/monitor".

(** One monitor without a role, one with. *)
Definition monitors : list Monitor.t :=
  [Monitor.mk alarm1 None; Monitor.mk alarm2 (Some role2)].

Definition props : EnvironmentProps.t :=
  EnvironmentProps.mk (Some "prod") None (Some monitors) app1.

(** A monitor whose role has the empty string for an ARN. *)
Definition props_empty_role : EnvironmentProps.t :=
  EnvironmentProps.mk (Some "prod") None
    (Some [Monitor.mk alarm1 (Some (IRole.mk ""))]) app1.

Definition props_unnamed : EnvironmentProps.t :=
  EnvironmentProps.mk None None None app1.




(** [new Environment(stack, id, { application })], its result read as an
    environment. *)
Definition unnamed (id : string) : @Environment cdk * @World cdk :=
  match Environment_new ["Stack"] id props_unnamed empty with
  | (Ok e, w') => (e, w')
  | (Throw _, w') => (importedByArn "" "" "", w')
  end.

(** [new Environment(stack, 'Env', props)] before anything else. *)
Definition environment : @Environment cdk :=
  match Environment_new ["Stack"] "Env" props empty with
  | (Ok e, _) => e
  | (Throw _, _) => importedByArn "" "" ""
  end.

Definition world : @World cdk :=
  snd (Environment_new ["Stack"] "Env" props empty).

End Built.

(** ** Further notions the statements use *)

Section Further.

Context {F : Framework}.

(** The monitors step of the constructor, [this.monitors?.map(...)], on its
    own. *)
Definition mappedMonitors (this : Path) (monitors : option (list Monitor.t))
    : M (option (list MonitorsProperty.t)) :=
  match monitors with
  | Some l => l' <- map_from (monitorsProperty this) l 0 ;; ret (Some l')
  | None => ret None
  end.

(** The monitors of [l] whose role ARN is falsy, each with its position,
    positions counted from [k]. *)
Fixpoint roleless_from (k : nat) (l : list Monitor.t)
    : list (nat * Monitor.t) :=
  match l with
  | [] => []
  | monitor :: rest =>
      if falsy (givenRoleArn monitor)
      then (k, monitor) :: roleless_from (S k) rest
      else roleless_from (S k) rest
  end.

(** [node] is the role made for the monitor [snd p] at position [fst p]. *)
Definition role_node (this : Path) (p : nat * Monitor.t) (node : Construct)
    : Prop :=
  exists roleArn : string,
    node = RoleNode this (roleId (fst p))
             (alarmRoleProps (IAlarm.alarmArn (Monitor.alarm (snd p))))
             roleArn.

Definition construct_scope (node : Construct) : Path :=
  match node with
  | ResourceNode scope _ _ => scope
  | CfnEnvironmentNode scope _ _ _ => scope
  | RoleNode scope _ _ _ => scope
  end.

Definition construct_id (node : Construct) : string :=
  match node with
  | ResourceNode _ id _ => id
  | CfnEnvironmentNode _ id _ _ => id
  | RoleNode _ id _ _ => id
  end.

(** The descriptor's view of a monitor list: the alarm ARNs, in order. *)
Definition alarmArns (l : list Monitor.t) : list string :=
  map (fun monitor => IAlarm.alarmArn (Monitor.alarm monitor)) l.

(** [monitors ?? []]: the monitors given, none when the property is left
    out. *)
Definition monitor_list (monitors : option (list Monitor.t))
    : list Monitor.t :=
  match monitors with
  | Some l => l
  | None => []
  end.

End Further.

(** A construction outside any stack, where formatting the ARN throws. *)
Module Elsewhere.


Definition world : @World Sample.cdk :=
  snd (Environment_new ["Elsewhere"] "Env" Built.props Sample.empty).

End Elsewhere.
Section ImportByArnFacts.

Context {F : Framework}.

(** [split] always has a first part. *)
Lemma split_nonempty (sep : ascii) (s : string) : split sep s <> [].
Proof.
  destruct s as [|c rest]; simpl.
  - discriminate.
  - destruct (Ascii.eqb c sep); [discriminate|].
    destruct (split sep rest); discriminate.
Qed.

(** The two checks of [fromEnvironmentArn], read off the parsed ARN. *)
Lemma fromEnvironmentArn_unfold (scope : Path) (id arn : string)
    (parsedArn : ArnComponents.t) (w : World) :
  splitArn scope arn SLASH_RESOURCE_NAME = Ok parsedArn ->
  fromEnvironmentArn scope id arn w =
    match ArnComponents.resourceName parsedArn with
    | None => (Throw (Error (missing_resource_name_message None)), w)
    | Some rn =>
        if (rn =? "")%string
        then (Throw (Error (missing_resource_name_message (Some rn))), w)
        else
          match split slash rn with
          | [a; m; e] =>
              if ((a =? "") || (e =? ""))%string
              then (Throw (Error missing_parameters_message), w)
              else (_ <- new_Import scope id arn ;;
                    ret (importedByArn a e arn)) w
          | _ => (Throw (Error missing_parameters_message), w)
          end
    end.
Proof.
  intros Hsplit. unfold fromEnvironmentArn, bind at 1, call.
  rewrite Hsplit.
  destruct (ArnComponents.resourceName parsedArn) as [rn|]; [|reflexivity].
  cbn [falsy]. destruct (rn =? "")%string; [reflexivity|].
  cbv zeta.
  destruct (split slash rn) as [|a [|m [|e [|x rest]]]]; try reflexivity.
  cbn [List.length Nat.eqb negb orb nth_error falsy nth].
  destruct (a =? "")%string; [reflexivity|].
  destruct (e =? "")%string; reflexivity.
Qed.

(** A string the core does not parse: the core's exception, as it is. *)
Lemma fromEnvironmentArn_unparsed (scope : Path) (id arn : string)
    (e : exn) (w : World) :
  splitArn scope arn SLASH_RESOURCE_NAME = Throw e ->
  fromEnvironmentArn scope id arn w = (Throw e, w).
Proof.
  intros Hsplit. unfold fromEnvironmentArn, bind, call.
  now rewrite Hsplit.
Qed.

(** [new Import(...)] when the base constructor returns. *)
Lemma new_Import_returns (scope : Path) (id arn : string) (w : World) :
  Resource_new (tree w) scope id (ResourceProps.mk None (Some arn)) = Ok tt ->
  new_Import scope id arn w =
    (Ok tt, mkWorld (tree w ++ [ResourceNode scope id
                                  (ResourceProps.mk None (Some arn))])
                    (environments w)).
Proof.
  intros H. unfold new_Import, construct. rewrite H. reflexivity.
Qed.

(** A resource name of three parts with non-empty ends passes both checks,
    whatever the middle part is. *)
Lemma fromEnvironmentArn_three_parts (scope : Path) (id arn : string)
    (parsedArn : ArnComponents.t) (rn a m e : string) (w : World) :
  splitArn scope arn SLASH_RESOURCE_NAME = Ok parsedArn ->
  ArnComponents.resourceName parsedArn = Some rn ->
  split slash rn = [a; m; e] ->
  a <> "" -> e <> "" ->
  Resource_new (tree w) scope id (ResourceProps.mk None (Some arn)) = Ok tt ->
  fromEnvironmentArn scope id arn w =
    (Ok (importedByArn a e arn),
     mkWorld (tree w ++ [ResourceNode scope id
                           (ResourceProps.mk None (Some arn))])
             (environments w)).
Proof.
  intros Hsplit Hrn Hparts Ha He Hctor.
  rewrite (fromEnvironmentArn_unfold _ _ _ _ _ Hsplit), Hrn.
  assert (Hne : (rn =? "")%string = false).
  { apply String.eqb_neq. intros ->. discriminate Hparts. }
  rewrite Hne, Hparts.
  apply String.eqb_neq in Ha, He. rewrite Ha, He. simpl.
  unfold bind. rewrite (new_Import_returns _ _ _ _ Hctor). reflexivity.
Qed.

(** C1. An ARN whose resource name splits on [/] into exactly
    [A; "environment"; E], [A] and [E] non-empty, is imported (the [Resource]
    base constructor returning for the scope and id): the environment has
    [applicationId = A], [environmentId = E], and [environmentArn] the input
    string itself. *)
Theorem fromEnvironmentArn_valid (scope : Path) (id arn : string)
    (parsedArn : ArnComponents.t) (rn A E : string) (w : World) :
  splitArn scope arn SLASH_RESOURCE_NAME = Ok parsedArn ->
  ArnComponents.resourceName parsedArn = Some rn ->
  split slash rn = [A; "environment"; E] ->
  A <> "" -> E <> "" ->
  Resource_new (tree w) scope id (ResourceProps.mk None (Some arn)) = Ok tt ->
  exists (environment : Environment) (w' : World),
    fromEnvironmentArn scope id arn w = (Ok environment, w')
    /\ applicationId environment = A
    /\ environmentId environment = E
    /\ environmentArn environment = arn.
Proof.
  intros Hsplit Hrn Hparts HA HE Hctor.
  eexists. eexists. split.
  - eapply fromEnvironmentArn_three_parts; eassumption.
  - repeat split.
Qed.

(** C9. The middle part of the resource name is not looked at: with three
    parts and non-empty ends the import goes through for any middle part, the
    empty one included, and the ids are parts 0 and 2. *)
Theorem fromEnvironmentArn_middle_part_unchecked (scope : Path)
    (id arn : string) (parsedArn : ArnComponents.t) (rn A middle E : string)
    (w : World) :
  splitArn scope arn SLASH_RESOURCE_NAME = Ok parsedArn ->
  ArnComponents.resourceName parsedArn = Some rn ->
  split slash rn = [A; middle; E] ->
  A <> "" -> E <> "" ->
  Resource_new (tree w) scope id (ResourceProps.mk None (Some arn)) = Ok tt ->
  exists w' : World,
    fromEnvironmentArn scope id arn w = (Ok (importedByArn A E arn), w')
    /\ applicationId (importedByArn A E arn) = nth 0 (split slash rn) ""
    /\ environmentId (importedByArn A E arn) = nth 2 (split slash rn) "".
Proof.
  intros Hsplit Hrn Hparts HA HE Hctor.
  eexists. split.
  - eapply fromEnvironmentArn_three_parts; eassumption.
  - rewrite Hparts. split; reflexivity.
Qed.

End ImportByArnFacts.

Section ImportByArnErrors.

Context {F : Framework}.


End ImportByArnErrors.

(** The three statements at the ARNs of [Sample]. *)

Lemma fromEnvironmentArn_valid_witness :
  exists (environment : @Environment Sample.cdk) (w' : @World Sample.cdk),
    fromEnvironmentArn ["Stack"] "Imported" Sample.arn Sample.empty
      = (Ok environment, w')
    /\ applicationId environment = "abc123"
    /\ environmentId environment = "def456"
    /\ environmentArn environment = Sample.arn.
Proof.
  apply (@fromEnvironmentArn_valid Sample.cdk ["Stack"] "Imported"
           Sample.arn Sample.parsed "abc123/environment/def456"
           "abc123" "def456" Sample.empty);
    solve [reflexivity | discriminate].
Defined.

Lemma fromEnvironmentArn_middle_part_unchecked_witness :
  exists w' : @World Sample.cdk,
    fromEnvironmentArn ["Stack"] "Imported" Sample.arn_other_middle
      Sample.empty
      = (Ok (@importedByArn Sample.cdk "abc123" "def456" Sample.arn_other_middle), w')
    /\ applicationId (@importedByArn Sample.cdk "abc123" "def456" Sample.arn_other_middle)
       = nth 0 (split slash "abc123//def456") ""
    /\ environmentId (@importedByArn Sample.cdk "abc123" "def456" Sample.arn_other_middle)
       = nth 2 (split slash "abc123//def456") "".
Proof.
  apply (@fromEnvironmentArn_middle_part_unchecked Sample.cdk ["Stack"]
           "Imported" Sample.arn_other_middle Sample.parsed_other_middle
           "abc123//def456" "abc123" "" "def456" Sample.empty);
    solve [reflexivity | discriminate].
Defined.


(** The short ARN is refused, and nothing was registered. *)
Example fromEnvironmentArn_short :
  @fromEnvironmentArn Sample.cdk ["Stack"] "Imported" Sample.arn_short
    Sample.empty
  = (Throw (Error missing_parameters_message), Sample.empty).
Proof. reflexivity. Qed.

(** ** The constructor *)

Section ConstructorFacts.

Context {F : Framework}.

Lemma or_else_call (v : option string) (r : result string) (w : World) :
  or_else v (call r) w =
    (match v with
     | Some s => if (s =? "")%string then r else Ok s
     | None => r
     end, w).
Proof.
  destruct v as [s|]; simpl; [|reflexivity].
  destruct (s =? "")%string; reflexivity.
Qed.

Lemma createAlarmRole_run (this : Path) (alarmArn : string) (index : nat)
    (w : World) :
  createAlarmRole this alarmArn index w =
    match Role_new (tree w) this (roleId index) (alarmRoleProps alarmArn) with
    | Ok roleArn =>
        (Ok (IRole.mk roleArn),
         mkWorld (tree w ++ [RoleNode this (roleId index)
                               (alarmRoleProps alarmArn) roleArn])
                 (environments w))
    | Throw e => (Throw e, w)
    end.
Proof.
  unfold createAlarmRole, bind, construct, roleId, alarmRoleProps.
  destruct (Role_new _ _ _ _); reflexivity.
Qed.

(** One run of the [map] callback: a monitor with a truthy role ARN touches
    nothing; any other asks the core for the role [Role<index>]. *)
Lemma monitorsProperty_run (this : Path) (monitor : Monitor.t) (index : nat)
    (w : World) :
  monitorsProperty this monitor index w =
    let alarmArn := IAlarm.alarmArn (Monitor.alarm monitor) in
    match givenRoleArn monitor with
    | Some s =>
        if (s =? "")%string then
          match Role_new (tree w) this (roleId index) (alarmRoleProps alarmArn) with
          | Ok roleArn =>
              (Ok (MonitorsProperty.mk alarmArn roleArn),
               mkWorld (tree w ++ [RoleNode this (roleId index)
                                     (alarmRoleProps alarmArn) roleArn])
                       (environments w))
          | Throw e => (Throw e, w)
          end
        else (Ok (MonitorsProperty.mk alarmArn s), w)
    | None =>
        match Role_new (tree w) this (roleId index) (alarmRoleProps alarmArn) with
        | Ok roleArn =>
            (Ok (MonitorsProperty.mk alarmArn roleArn),
             mkWorld (tree w ++ [RoleNode this (roleId index)
                                   (alarmRoleProps alarmArn) roleArn])
                     (environments w))
        | Throw e => (Throw e, w)
        end
    end.
Proof.
  unfold monitorsProperty, givenRoleArn, or_else.
  destruct (option_map IRole.roleArn (Monitor.alarmRole monitor)) as [s|];
    cbv zeta; unfold bind at 1.
  - change (falsy (Some s)) with (s =? "")%string.
    destruct (s =? "")%string; [|reflexivity].
    unfold bind. rewrite createAlarmRole_run.
    destruct (Role_new _ _ _ _); reflexivity.
  - unfold bind. rewrite createAlarmRole_run.
    destruct (Role_new _ _ _ _); reflexivity.
Qed.

Lemma monitorsProperty_given (this : Path) (monitor : Monitor.t)
    (index : nat) (w : World) :
  falsy (givenRoleArn monitor) = false ->
  exists s : string,
    givenRoleArn monitor = Some s
    /\ monitorsProperty this monitor index w =
         (Ok (MonitorsProperty.mk (IAlarm.alarmArn (Monitor.alarm monitor)) s),
          w).
Proof.
  intros Hf. rewrite monitorsProperty_run. cbv zeta.
  destruct (givenRoleArn monitor) as [s|]; [|discriminate Hf].
  simpl in Hf. rewrite Hf. exists s. split; reflexivity.
Qed.

Lemma monitorsProperty_synthesized (this : Path) (monitor : Monitor.t)
    (index : nat) (w : World) :
  falsy (givenRoleArn monitor) = true ->
  monitorsProperty this monitor index w =
    let alarmArn := IAlarm.alarmArn (Monitor.alarm monitor) in
    match Role_new (tree w) this (roleId index) (alarmRoleProps alarmArn) with
    | Ok roleArn =>
        (Ok (MonitorsProperty.mk alarmArn roleArn),
         mkWorld (tree w ++ [RoleNode this (roleId index)
                               (alarmRoleProps alarmArn) roleArn])
                 (environments w))
    | Throw e => (Throw e, w)
    end.
Proof.
  intros Hf. rewrite monitorsProperty_run. cbv zeta.
  destruct (givenRoleArn monitor) as [s|]; [|reflexivity].
  simpl in Hf. rewrite Hf. reflexivity.
Qed.

Lemma synthesized_role_shift (this : Path) (monitor : Monitor.t)
    (l : list Monitor.t) (k : nat) (added : list Construct) :
  Forall (synthesized_role this l (S k)) added ->
  Forall (synthesized_role this (monitor :: l) k) added.
Proof.
  apply Forall_impl. intros node (j & m & roleArn & Hj & Hf & ->).
  exists (S j), m, roleArn. repeat split; try assumption.
  now rewrite Nat.add_succ_r.
Qed.

(** The monitor mapping: it registers nothing with an application, adds only
    roles of monitors without a truthy role ARN, and when it returns, every
    monitor has its entry at its own position. *)
Lemma map_from_run (this : Path) (l : list Monitor.t) :
  forall (k : nat) (w : World) (r : result (list MonitorsProperty.t))
         (w' : World),
    map_from (monitorsProperty this) l k w = (r, w') ->
    environments w' = environments w
    /\ exists added : list Construct,
         tree w' = tree w ++ added
         /\ Forall (synthesized_role this l k) added
         /\ forall entries : list MonitorsProperty.t,
              r = Ok entries ->
              forall (j : nat) (monitor : Monitor.t),
                nth_error l j = Some monitor ->
                exists entry : MonitorsProperty.t,
                  nth_error entries j = Some entry
                  /\ entry_of this k added j monitor entry.
Proof.
  induction l as [|m l IH]; intros k w r w' Hrun.
  - injection Hrun as <- <-. split; [reflexivity|].
    exists []. rewrite app_nil_r. repeat split; [constructor|].
    intros entries _ [|j] monitor Hj; discriminate Hj.
  - cbn [map_from] in Hrun. unfold bind at 1 in Hrun.
    destruct (falsy (givenRoleArn m)) eqn:Hf.
    + (* a role is asked for *)
      rewrite (monitorsProperty_synthesized _ _ _ _ Hf) in Hrun.
      cbv zeta in Hrun.
      destruct (Role_new (tree w) this (roleId k)
                  (alarmRoleProps (IAlarm.alarmArn (Monitor.alarm m))))
        as [roleArn|e] eqn:Hrole.
      2:{ injection Hrun as <- <-. split; [reflexivity|].
          exists []. rewrite app_nil_r. repeat split; [constructor|].
          intros entries H; discriminate H. }
      unfold bind at 1 in Hrun.
      destruct (map_from (monitorsProperty this) l (S k) _) as [r1 w1] eqn:Hrest.
      destruct (IH _ _ _ _ Hrest) as (Henv & added & Htree & Hroles & Hentries).
      assert (Hw' : w' = w1) by (destruct r1; injection Hrun; auto).
      subst w'. split; [exact Henv|].
      exists (RoleNode this (roleId k)
                (alarmRoleProps (IAlarm.alarmArn (Monitor.alarm m))) roleArn
              :: added).
      split; [rewrite Htree; cbn [tree]; now rewrite <- app_assoc|].
      split.
      { constructor; [|now apply synthesized_role_shift].
        exists 0, m, roleArn. rewrite Nat.add_0_r. repeat split. exact Hf. }
      intros entries -> j monitor Hj.
      destruct r1 as [ys|e]; [|discriminate Hrun].
      injection Hrun as <-.
      destruct j as [|j].
      * injection Hj as <-. eexists. split; [reflexivity|].
        unfold entry_of. cbn [MonitorsProperty.alarmArn MonitorsProperty.alarmRoleArn].
        rewrite Nat.add_0_r. repeat split.
        -- intros H. rewrite Hf in H. discriminate H.
        -- now left.
        -- exists (tree w). exact Hrole.
      * destruct (Hentries ys eq_refl j monitor Hj) as (entry & Hnth & Ha & Hg & Hs).
        exists entry. split; [exact Hnth|].
        unfold entry_of. rewrite Nat.add_succ_r. repeat split.
        -- exact Ha.
        -- exact Hg.
        -- right. now apply Hs.
        -- now apply Hs.
    + (* the monitor brought a role *)
      destruct (monitorsProperty_given this m k w Hf) as (s & Hs & Hstep).
      rewrite Hstep in Hrun. unfold bind at 1 in Hrun.
      destruct (map_from (monitorsProperty this) l (S k) w) as [r1 w1] eqn:Hrest.
      destruct (IH _ _ _ _ Hrest) as (Henv & added & Htree & Hroles & Hentries).
      assert (Hw' : w' = w1) by (destruct r1; injection Hrun; auto).
      subst w'. split; [exact Henv|].
      exists added. split; [exact Htree|].
      split; [now apply synthesized_role_shift|].
      intros entries -> j monitor Hj.
      destruct r1 as [ys|e]; [|discriminate Hrun].
      injection Hrun as <-.
      destruct j as [|j].
      * injection Hj as <-. eexists. split; [reflexivity|].
        unfold entry_of. cbn [MonitorsProperty.alarmArn MonitorsProperty.alarmRoleArn].
        repeat split.
        -- intros _. exact Hs.
        -- rewrite Hf in H. discriminate H.
        -- rewrite Hf in H. discriminate H.
      * destruct (Hentries ys eq_refl j monitor Hj) as (entry & Hnth & Ha & Hg & Hsy).
        exists entry. split; [exact Hnth|].
        unfold entry_of. rewrite Nat.add_succ_r. repeat split.
        -- exact Ha.
        -- exact Hg.
        -- now apply Hsy.
        -- now apply Hsy.
Qed.

(** Every way a construction can end.  It only ever adds to the tree.  When
    it throws, no application has heard of it.  When it returns, the tree has
    gained the environment's own node, the roles of the monitor mapping and
    the [CfnEnvironment] with the descriptor, in that order, and the
    application has gained the environment, once. *)
Lemma Environment_new_inv (scope : Path) (id : string)
    (props : EnvironmentProps.t) (w : World) (r : result Environment)
    (w' : World) :
  Environment_new scope id props w = (r, w') ->
  let this := scope ++ [id] in
  let app := EnvironmentProps.application props in
  exists added : list Construct,
    tree w' = tree w ++ added
    /\ match r with
       | Throw _ => environments w' = environments w
       | Ok environment =>
           exists (nm : string) (roles : list Construct)
                  (cfn_monitors : option (list MonitorsProperty.t))
                  (ref arn : string),
             let descriptor :=
               CfnEnvironmentProps.mk (IApplication.applicationId app) nm
                 (EnvironmentProps.description props) cfn_monitors in
             added = ResourceNode scope id
                       (ResourceProps.mk (EnvironmentProps.name props) None)
                     :: roles
                     ++ [CfnEnvironmentNode this "Resource" descriptor ref]
             /\ resolvedName this props = Ok nm
             /\ match EnvironmentProps.monitors props with
                | None => cfn_monitors = None /\ roles = []
                | Some l =>
                    exists entries : list MonitorsProperty.t,
                      cfn_monitors = Some entries
                      /\ Forall (synthesized_role this l 0) roles
                      /\ forall (j : nat) (monitor : Monitor.t),
                           nth_error l j = Some monitor ->
                           exists entry : MonitorsProperty.t,
                             nth_error entries j = Some entry
                             /\ entry_of this 0 roles j monitor entry
                end
             /\ formatArn this
                  (environmentArnComponents (IApplication.applicationId app) ref)
                = Ok arn
             /\ environment =
                  mkEnvironment (Some app) (IApplication.applicationId app)
                    (Some nm) (EnvironmentProps.description props)
                    (EnvironmentProps.monitors props) ref arn
                    (Some (ExtensibleBase_new scope arn nm))
             /\ environments w' = environments w ++ [(app, environment)]
       end.
Proof.
  intros Hrun this app. unfold Environment_new in Hrun. cbv zeta in Hrun.
  fold this in Hrun. fold app in Hrun.
  unfold bind at 1 in Hrun. unfold construct at 1 in Hrun.
  destruct (Resource_new (tree w) scope id _) as [[]|e] eqn:Hsuper.
  2:{ injection Hrun as <- <-. exists []. now rewrite app_nil_r. }
  unfold bind at 1 in Hrun. rewrite or_else_call in Hrun.
  fold (resolvedName this props) in Hrun.
  destruct (resolvedName this props) as [nm|e] eqn:Hname.
  2:{ injection Hrun as <- <-. eexists. split; reflexivity. }
  unfold bind at 1 in Hrun.
  set (w1 := mkWorld (tree w ++ _) (environments w)) in Hrun.
  assert (Hmonitors :
    exists (r1 : result (option (list MonitorsProperty.t))) (w2 : World)
           (roles : list Construct),
      (match EnvironmentProps.monitors props with
       | Some l => l' <- map_from (monitorsProperty this) l 0 ;; ret (Some l')
       | None => ret None
       end) w1 = (r1, w2)
      /\ environments w2 = environments w1
      /\ tree w2 = tree w1 ++ roles
      /\ forall cfn_monitors, r1 = Ok cfn_monitors ->
           match EnvironmentProps.monitors props with
           | None => cfn_monitors = None /\ roles = []
           | Some l =>
               exists entries : list MonitorsProperty.t,
                 cfn_monitors = Some entries
                 /\ Forall (synthesized_role this l 0) roles
                 /\ forall (j : nat) (monitor : Monitor.t),
                      nth_error l j = Some monitor ->
                      exists entry : MonitorsProperty.t,
                        nth_error entries j = Some entry
                        /\ entry_of this 0 roles j monitor entry
           end).
  { destruct (EnvironmentProps.monitors props) as [l|].
    - unfold bind.
      destruct (map_from (monitorsProperty this) l 0 w1) as [r0 w2] eqn:Hmap.
      destruct (map_from_run _ _ _ _ _ _ Hmap) as (Henv & roles & Htree & Hroles & Hentries).
      destruct r0 as [entries|e].
      + exists (Ok (Some entries)), w2, roles.
        refine (conj eq_refl (conj Henv (conj Htree _))).
        intros cfn_monitors [= <-]. exists entries.
        refine (conj eq_refl (conj Hroles _)). now apply Hentries.
      + exists (Throw e), w2, roles.
        refine (conj eq_refl (conj Henv (conj Htree _))).
        intros cfn_monitors H; discriminate H.
    - exists (Ok None), w1, []. rewrite app_nil_r.
      refine (conj eq_refl (conj eq_refl (conj eq_refl _))).
      intros cfn_monitors [= <-]. now split. }
  destruct Hmonitors as (r1 & w2 & roles & Hmon & Henv2 & Htree2 & Hdescr).
  rewrite Hmon in Hrun.
  destruct r1 as [cfn_monitors|e].
  2:{ injection Hrun as <- <-. exists (ResourceNode scope id
        (ResourceProps.mk (EnvironmentProps.name props) None) :: roles).
      split; [|exact Henv2].
      rewrite Htree2. subst w1. cbn [tree]. now rewrite <- app_assoc. }
  unfold bind at 1 in Hrun. unfold construct at 1 in Hrun.
  destruct (CfnEnvironment_new (tree w2) this "Resource" _) as [ref|e] eqn:Hcfn.
  2:{ injection Hrun as <- <-. exists (ResourceNode scope id
        (ResourceProps.mk (EnvironmentProps.name props) None) :: roles).
      split; [|exact Henv2].
      rewrite Htree2. subst w1. cbn [tree]. now rewrite <- app_assoc. }
  unfold bind at 1 in Hrun. unfold call at 1 in Hrun.
  destruct (formatArn this _) as [arn|e] eqn:Harn.
  2:{ injection Hrun as <- <-. eexists. cbn [tree environments].
      split; [|exact Henv2].
      rewrite Htree2. subst w1. cbn [tree]. rewrite <- !app_assoc. reflexivity. }
  unfold bind, addExistingEnvironment, ret in Hrun.
  injection Hrun as <- <-. eexists. cbn [tree environments]. split.
  { rewrite Htree2. subst w1. cbn [tree]. rewrite <- !app_assoc. reflexivity. }
  exists nm, roles, cfn_monitors, ref, arn. cbv zeta.
  refine (conj eq_refl (conj eq_refl (conj (Hdescr _ eq_refl)
            (conj Harn (conj eq_refl _))))).
  rewrite Henv2. reflexivity.
Qed.

End ConstructorFacts.

Section Registration.

Context {F : Framework}.

Lemma new_Import_environments (scope : Path) (id arn : string) (w : World) :
  environments (snd (new_Import scope id arn w)) = environments w.
Proof.
  unfold new_Import, construct.
  destruct (Resource_new _ _ _ _); reflexivity.
Qed.

Lemma fromEnvironmentArn_environments (scope : Path) (id arn : string)
    (w : World) :
  environments (snd (fromEnvironmentArn scope id arn w)) = environments w.
Proof.
  unfold fromEnvironmentArn, bind at 1, call.
  destruct (splitArn scope arn SLASH_RESOURCE_NAME) as [parsedArn|e];
    [|reflexivity].
  destruct (ArnComponents.resourceName parsedArn) as [rn|]; [|reflexivity].
  destruct (falsy (Some rn)); [reflexivity|].
  cbv zeta.
  destruct (negb _ || _ || _); [reflexivity|].
  unfold bind.
  pose proof (new_Import_environments scope id arn w) as H.
  destruct (new_Import scope id arn w) as [[[]|e] w']; exact H.
Qed.

Lemma fromEnvironmentAttributes_environments (scope : Path) (id : string)
    (attr : EnvironmentAttributes.t) (w : World) :
  environments (snd (fromEnvironmentAttributes scope id attr w))
  = environments w.
Proof.
  unfold fromEnvironmentAttributes. cbv zeta. unfold bind at 1, call.
  destruct (formatArn scope _) as [arn|e]; [|reflexivity].
  unfold bind.
  pose proof (new_Import_environments scope id arn w) as H.
  destruct (new_Import scope id arn w) as [[[]|e] w']; exact H.
Qed.

(** C7. A construction that returns has called
    [application.addExistingEnvironment] once, with the environment it
    returns: the application's list has grown by that one entry, the
    [CfnEnvironment] carrying the descriptor is in the tree under the id the
    environment reads back, and the environment's ARN is the formatted one.
    A construction that throws has left the application's list as it was. *)
Theorem Environment_new_registers_once (scope : Path) (id : string)
    (props : EnvironmentProps.t) (w : World) :
  match Environment_new scope id props w with
  | (Ok environment, w') =>
      environments w'
      = environments w ++ [(EnvironmentProps.application props, environment)]
      /\ (exists descriptor : CfnEnvironmentProps.t,
            In (CfnEnvironmentNode (scope ++ [id]) "Resource" descriptor
                  (environmentId environment)) (tree w'))
      /\ formatArn (scope ++ [id])
           (environmentArnComponents (applicationId environment)
              (environmentId environment))
         = Ok (environmentArn environment)
  | (Throw _, w') => environments w' = environments w
  end.
Proof.
  destruct (Environment_new scope id props w) as [r w'] eqn:Hrun.
  destruct (Environment_new_inv _ _ _ _ _ _ Hrun) as (added & Htree & Hr).
  destruct r as [environment|e]; [|exact Hr].
  destruct Hr as (nm & roles & cfn_monitors & ref & arn & H).
  cbv zeta in H. destruct H as (-> & _ & _ & Harn & -> & Henvs).
  cbn [environmentId applicationId environmentArn].
  split; [exact Henvs|]. split; [|exact Harn].
  eexists. rewrite Htree. apply in_or_app. right.
  right. apply in_or_app. right. left. reflexivity.
Qed.

(** C10. Neither import path calls [addExistingEnvironment], however it
    ends: the applications' lists are as before.  The constructor is the one
    that registers, when it returns. *)
Theorem imports_never_register (scope : Path) (id : string) (w : World) :
  (forall arn : string,
     environments (snd (fromEnvironmentArn scope id arn w)) = environments w)
  /\ (forall attr : EnvironmentAttributes.t,
        environments (snd (fromEnvironmentAttributes scope id attr w))
        = environments w)
  /\ (forall props : EnvironmentProps.t,
        match Environment_new scope id props w with
        | (Ok _, w') =>
            List.length (environments w') = S (List.length (environments w))
        | (Throw _, w') => environments w' = environments w
        end).
Proof.
  split; [|split].
  - intros arn. apply fromEnvironmentArn_environments.
  - intros attr. apply fromEnvironmentAttributes_environments.
  - intros props.
    destruct (Environment_new scope id props w) as [r w'] eqn:Hrun.
    destruct (Environment_new_inv _ _ _ _ _ _ Hrun) as (added & _ & Hr).
    destruct r as [environment|e]; [|exact Hr].
    destruct Hr as (nm & roles & cfn_monitors & ref & arn & H).
    cbv zeta in H. destruct H as (_ & _ & _ & _ & _ & ->).
    rewrite length_app. simpl. lia.
Qed.

End Registration.

(** A construction under the stack returns and is registered once. *)
Example Environment_new_registered :
  environments Built.world = [(Built.app1, Built.environment)].
Proof. reflexivity. Qed.

(** A construction outside any stack: the descriptor is emitted, the ARN
    cannot be formatted, and no application hears of the environment. *)
Example Environment_new_throws_unregistered :
  @Environment_new Sample.cdk ["Elsewhere"] "Env" Built.props Sample.empty
  = (Throw (Error "No stack could be identified for the construct"),
     mkWorld
       [ResourceNode ["Elsewhere"] "Env" (ResourceProps.mk (Some "prod") None);
        RoleNode ["Elsewhere"; "Env"] "Role0"
          (alarmRoleProps (IAlarm.alarmArn Built.alarm1))
          "${Token[Elsewhere.Env.Role0.Arn]}";
        CfnEnvironmentNode ["Elsewhere"; "Env"] "Resource"
          (CfnEnvironmentProps.mk "app1" "prod" None
             (Some [MonitorsProperty.mk (IAlarm.alarmArn Built.alarm1)
                      "${Token[Elsewhere.Env.Role0.Arn]}";
                    MonitorsProperty.mk (IAlarm.alarmArn Built.alarm2)
                      (IRole.roleArn Built.role2)]))
          "${Token[Elsewhere.Env.Resource.Ref]}"]
       []).
Proof. reflexivity. Qed.

Section Monitors.

Context {F : Framework}.

Lemma string_of_index_inj (i j : nat) :
  string_of_index i = string_of_index j -> i = j.
Proof.
  unfold string_of_index. intros H.
  apply Unsigned.to_uint_inj.
  assert (Hs : Some (Nat.to_uint i) = Some (Nat.to_uint j)).
  { rewrite <- (NilEmpty.usu (Nat.to_uint i)), <- (NilEmpty.usu (Nat.to_uint j)).
    now rewrite H. }
  now injection Hs.
Qed.

(** C3. A monitor without [alarmRole], at position [i] of the monitors of a
    construction that returned: the descriptor's entry at [i] carries the
    monitor's alarm ARN and the ARN of a role created by this construction;
    that role is the construct [Role<i>] of the environment, assumable by the
    AppConfig service principal, its one inline policy holding the single
    statement that allows [cloudwatch:DescribeAlarms] on this alarm's ARN.
    The ARN is not empty when the IAM collaborator hands out none that is. *)
Theorem Environment_new_synthesizes_role (scope : Path) (id : string)
    (props : EnvironmentProps.t) (w w' : World) (environment : Environment)
    (l : list Monitor.t) (i : nat) (monitor : Monitor.t) :
  role_arns_nonempty ->
  Environment_new scope id props w = (Ok environment, w') ->
  EnvironmentProps.monitors props = Some l ->
  nth_error l i = Some monitor ->
  Monitor.alarmRole monitor = None ->
  exists (added : list Construct) (descriptor : CfnEnvironmentProps.t)
         (ref : string) (entries : list MonitorsProperty.t)
         (roleArn : string),
    tree w' = tree w ++ added
    /\ In (CfnEnvironmentNode (scope ++ [id]) "Resource" descriptor ref) added
    /\ CfnEnvironmentProps.monitors descriptor = Some entries
    /\ nth_error entries i
       = Some (MonitorsProperty.mk (IAlarm.alarmArn (Monitor.alarm monitor))
                 roleArn)
    /\ roleArn <> ""
    /\ In (RoleNode (scope ++ [id]) ("Role" +++ string_of_index i)
             (RoleProps.mk GENERATE_IF_NEEDED
                (ServicePrincipal "appconfig.amazonaws.com")
                [("AllowAppConfigMonitorAlarmPolicy",
                  PolicyDocument.mk
                    [PolicyStatement.mk ALLOW ["cloudwatch:DescribeAlarms"]
                       [IAlarm.alarmArn (Monitor.alarm monitor)]])])
             roleArn) added.
Proof.
  intros Hnonempty Hrun Hmonitors Hi Hrole.
  destruct (Environment_new_inv _ _ _ _ _ _ Hrun) as (added & Htree & Hr).
  destruct Hr as (nm & roles & cfn_monitors & ref & arn & H).
  cbv zeta in H. destruct H as (Hadded & _ & Hmap & _).
  rewrite Hmonitors in Hmap.
  destruct Hmap as (entries & -> & _ & Hentries).
  destruct (Hentries i monitor Hi) as (entry & Hentry & Halarm & _ & Hsynth).
  assert (Hfalsy : falsy (givenRoleArn monitor) = true).
  { unfold givenRoleArn. now rewrite Hrole. }
  destruct (Hsynth Hfalsy) as (Hin & t & Hnew).
  exists added, (CfnEnvironmentProps.mk
                   (IApplication.applicationId (EnvironmentProps.application props))
                   nm (EnvironmentProps.description props) (Some entries)),
    ref, entries, (MonitorsProperty.alarmRoleArn entry).
  split; [exact Htree|].
  split; [rewrite Hadded; right; apply in_or_app; right; now left|].
  split; [reflexivity|].
  split; [rewrite Hentry, <- Halarm; now destruct entry|].
  split; [exact (Hnonempty _ _ _ _ _ Hnew)|].
  rewrite Hadded. right. apply in_or_app. left. exact Hin.
Qed.

(** C5, amended. A monitor that brings an [alarmRole] whose ARN is not the
    empty string, at position [i] of the monitors of a construction that
    returned: the descriptor's entry at [i] carries the ARN of that role, and
    the construction has created no role [Role<i>]. *)
Theorem Environment_new_keeps_given_role (scope : Path) (id : string)
    (props : EnvironmentProps.t) (w w' : World) (environment : Environment)
    (l : list Monitor.t) (i : nat) (monitor : Monitor.t) (role : IRole.t) :
  Environment_new scope id props w = (Ok environment, w') ->
  EnvironmentProps.monitors props = Some l ->
  nth_error l i = Some monitor ->
  Monitor.alarmRole monitor = Some role ->
  IRole.roleArn role <> "" ->
  exists (added : list Construct) (descriptor : CfnEnvironmentProps.t)
         (ref : string) (entries : list MonitorsProperty.t),
    tree w' = tree w ++ added
    /\ In (CfnEnvironmentNode (scope ++ [id]) "Resource" descriptor ref) added
    /\ CfnEnvironmentProps.monitors descriptor = Some entries
    /\ nth_error entries i
       = Some (MonitorsProperty.mk (IAlarm.alarmArn (Monitor.alarm monitor))
                 (IRole.roleArn role))
    /\ forall (roleProps : RoleProps.t) (roleArn : string),
         ~ In (RoleNode (scope ++ [id]) ("Role" +++ string_of_index i)
                 roleProps roleArn) added.
Proof.
  intros Hrun Hmonitors Hi Hrole Harn.
  destruct (Environment_new_inv _ _ _ _ _ _ Hrun) as (added & Htree & Hr).
  destruct Hr as (nm & roles & cfn_monitors & ref & arn & H).
  cbv zeta in H. destruct H as (Hadded & _ & Hmap & _).
  rewrite Hmonitors in Hmap.
  destruct Hmap as (entries & -> & Hroles & Hentries).
  destruct (Hentries i monitor Hi) as (entry & Hentry & Halarm & Hgiven & _).
  assert (Htruthy : falsy (givenRoleArn monitor) = false).
  { unfold givenRoleArn. rewrite Hrole. simpl. now apply String.eqb_neq. }
  specialize (Hgiven Htruthy). unfold givenRoleArn in Hgiven.
  rewrite Hrole in Hgiven. injection Hgiven as Hgiven.
  exists added, (CfnEnvironmentProps.mk
                   (IApplication.applicationId (EnvironmentProps.application props))
                   nm (EnvironmentProps.description props) (Some entries)),
    ref, entries.
  split; [exact Htree|].
  split; [rewrite Hadded; right; apply in_or_app; right; now left|].
  split; [reflexivity|].
  split; [rewrite Hentry, Hgiven, <- Halarm; now destruct entry|].
  intros roleProps roleArn Hin. rewrite Hadded in Hin.
  destruct Hin as [Hin | Hin]; [discriminate Hin|].
  apply in_app_or in Hin. destruct Hin as [Hin | [Hin | []]];
    [|discriminate Hin].
  rewrite Forall_forall in Hroles.
  destruct (Hroles _ Hin) as (j & m & roleArn' & Hj & Hfalsy & Heq).
  injection Heq as Hid _ _. apply string_of_index_inj in Hid. subst j.
  rewrite Hi in Hj. injection Hj as <-.
  rewrite Htruthy in Hfalsy. discriminate Hfalsy.
Qed.

End Monitors.

Lemma Environment_new_synthesizes_role_witness :
  exists (added : list Construct) (descriptor : CfnEnvironmentProps.t)
         (ref : string) (entries : list MonitorsProperty.t)
         (roleArn : string),
    tree Built.world = tree Sample.empty ++ added
    /\ In (CfnEnvironmentNode (["Stack"] ++ ["Env"]) "Resource" descriptor ref)
         added
    /\ CfnEnvironmentProps.monitors descriptor = Some entries
    /\ nth_error entries 0
       = Some (MonitorsProperty.mk
                 (IAlarm.alarmArn (Monitor.alarm (Monitor.mk Built.alarm1 None)))
                 roleArn)
    /\ roleArn <> ""
    /\ In (RoleNode (["Stack"] ++ ["Env"]) ("Role" +++ string_of_index 0)
             (RoleProps.mk GENERATE_IF_NEEDED
                (ServicePrincipal "appconfig.amazonaws.com")
                [("AllowAppConfigMonitorAlarmPolicy",
                  PolicyDocument.mk
                    [PolicyStatement.mk ALLOW ["cloudwatch:DescribeAlarms"]
                       [IAlarm.alarmArn
                          (Monitor.alarm (Monitor.mk Built.alarm1 None))]])])
             roleArn) added.
Proof.
  apply (@Environment_new_synthesizes_role Sample.cdk ["Stack"] "Env"
           Built.props Sample.empty Built.world Built.environment
           Built.monitors 0 (Monitor.mk Built.alarm1 None));
    try reflexivity.
  intros t scope id props roleArn H. injection H as <-. discriminate.
Defined.

Lemma Environment_new_keeps_given_role_witness :
  exists (added : list Construct) (descriptor : CfnEnvironmentProps.t)
         (ref : string) (entries : list MonitorsProperty.t),
    tree Built.world = tree Sample.empty ++ added
    /\ In (CfnEnvironmentNode (["Stack"] ++ ["Env"]) "Resource" descriptor ref)
         added
    /\ CfnEnvironmentProps.monitors descriptor = Some entries
    /\ nth_error entries 1
       = Some (MonitorsProperty.mk
                 (IAlarm.alarmArn
                    (Monitor.alarm (Monitor.mk Built.alarm2 (Some Built.role2))))
                 (IRole.roleArn Built.role2))
    /\ forall (roleProps : RoleProps.t) (roleArn : string),
         ~ In (RoleNode (["Stack"] ++ ["Env"]) ("Role" +++ string_of_index 1)
                 roleProps roleArn) added.
Proof.
  apply (@Environment_new_keeps_given_role Sample.cdk ["Stack"] "Env"
           Built.props Sample.empty Built.world Built.environment
           Built.monitors 1 (Monitor.mk Built.alarm2 (Some Built.role2))
           Built.role2);
    solve [reflexivity | discriminate].
Defined.

(** C5 as stated fails for a role whose ARN is the empty string: the role is
    there, and still [Role0] is created and its ARN is the one in the
    descriptor. *)
Lemma Environment_new_empty_role_arn :
  Monitor.alarmRole (Monitor.mk Built.alarm1 (Some (IRole.mk "")))
    = Some (IRole.mk "")
  /\ @Environment_new Sample.cdk ["Stack"] "Env" Built.props_empty_role
       Sample.empty
     = (Ok (mkEnvironment (Some Built.app1) "app1" (Some "prod") None
              (Some [Monitor.mk Built.alarm1 (Some (IRole.mk ""))])
              "${Token[Stack.Env.Resource.Ref]}"
              "arn:aws:appconfig:us-east-1:123456789012:application/app1/environment/${Token[Stack.Env.Resource.Ref]}"
              (Some (@ExtensibleBase_new Sample.cdk ["Stack"]
                       "arn:aws:appconfig:us-east-1:123456789012:application/app1/environment/${Token[Stack.Env.Resource.Ref]}"
                       "prod"))),
        mkWorld
          [ResourceNode ["Stack"] "Env" (ResourceProps.mk (Some "prod") None);
           RoleNode ["Stack"; "Env"] "Role0"
             (alarmRoleProps (IAlarm.alarmArn Built.alarm1))
             "${Token[Stack.Env.Role0.Arn]}";
           CfnEnvironmentNode ["Stack"; "Env"] "Resource"
             (CfnEnvironmentProps.mk "app1" "prod" None
                (Some [MonitorsProperty.mk (IAlarm.alarmArn Built.alarm1)
                         "${Token[Stack.Env.Role0.Arn]}"]))
             "${Token[Stack.Env.Resource.Ref]}"]
          [(Built.app1,
            mkEnvironment (Some Built.app1) "app1" (Some "prod") None
              (Some [Monitor.mk Built.alarm1 (Some (IRole.mk ""))])
              "${Token[Stack.Env.Resource.Ref]}"
              "arn:aws:appconfig:us-east-1:123456789012:application/app1/environment/${Token[Stack.Env.Resource.Ref]}"
              (Some (@ExtensibleBase_new Sample.cdk ["Stack"]
                       "arn:aws:appconfig:us-east-1:123456789012:application/app1/environment/${Token[Stack.Env.Resource.Ref]}"
                       "prod")))]).
Proof. split; reflexivity. Qed.

(** ** The round trip *)

Section RoundTripFacts.

Context {F : Framework}.

Lemma split_without_separator (sep : ascii) (s : string) :
  occurs sep s = false -> split sep s = [s].
Proof.
  induction s as [|c rest IH]; simpl; intros H; [reflexivity|].
  apply orb_false_iff in H. destruct H as [Hc Hrest].
  rewrite Hc, (IH Hrest). reflexivity.
Qed.

Lemma split_at_separator (sep : ascii) (s t : string) :
  occurs sep s = false ->
  split sep (s +++ String sep t) = s :: split sep t.
Proof.
  induction s as [|c rest IH]; simpl; intros H.
  - now rewrite Ascii.eqb_refl.
  - apply orb_false_iff in H. destruct H as [Hc Hrest].
    rewrite Hc, (IH Hrest). reflexivity.
Qed.

(** The resource name both [formatArn] calls pass, split again. *)
Lemma split_environment_resource_name (appId envId : string) :
  occurs slash appId = false ->
  occurs slash envId = false ->
  split slash (appId +++ "/environment/" +++ envId)
  = [appId; "environment"; envId].
Proof.
  intros Happ Henv.
  change (appId +++ "/environment/" +++ envId)
    with (appId +++ String slash ("environment" +++ String slash envId)).
  rewrite (split_at_separator _ _ _ Happ).
  rewrite (split_at_separator slash "environment" envId eq_refl).
  now rewrite (split_without_separator _ _ Henv).
Qed.


End RoundTripFacts.



(** ** The environment's name *)

Section Names.

Context {F : Framework}.










End Names.

(** No way of naming children with at most [n] characters tells all the
    children of a scope apart, whatever the generator does. *)

Lemma all_ascii_complete (a : ascii) : In a all_ascii.
Proof.
  unfold all_ascii. rewrite <- (ascii_nat_embedding a).
  apply in_map, in_seq. pose proof (nat_ascii_bounded a). lia.
Qed.

Lemma all_strings_complete (n : nat) (s : string) :
  String.length s <= n -> In s (all_strings n).
Proof.
  revert s. induction n as [|n IH]; intros [|c s] H; simpl in H.
  - now left.
  - lia.
  - now left.
  - cbn [all_strings]. right. apply in_flat_map. exists s. split.
    + apply IH. lia.
    + apply (in_map (fun a => String a s)), all_ascii_complete.
Qed.

Lemma repeated_length (k : nat) : String.length (repeated k) = k.
Proof. induction k as [|k IH]; simpl; [reflexivity | now rewrite IH]. Qed.

Lemma repeated_inj (j k : nat) : repeated j = repeated k -> j = k.
Proof.
  intros H. rewrite <- (repeated_length j), <- (repeated_length k).
  now rewrite H.
Qed.

Lemma bounded_names_collide (generate : Path -> string) (scope : Path)
    (n : nat) :
  (forall id : string, String.length (generate (scope ++ [id])) <= n) ->
  exists id1 id2 : string,
    id1 <> id2 /\ generate (scope ++ [id1]) = generate (scope ++ [id2]).
Proof.
  intros Hbound.
  set (ids := map repeated (seq 0 (S (List.length (all_strings n))))).
  set (nameOf := fun id : string => generate (scope ++ [id])).
  assert (Hids : NoDup ids).
  { unfold ids. apply Injective_map_NoDup; [|apply seq_NoDup].
    intros j k. apply repeated_inj. }
  assert (Hdup : ~ NoDup (map nameOf ids)).
  { intros Hnodup.
    assert (Hincl : incl (map nameOf ids) (all_strings n)).
    { intros s Hs. apply in_map_iff in Hs. destruct Hs as (id & <- & _).
      apply all_strings_complete, Hbound. }
    pose proof (NoDup_incl_length Hnodup Hincl) as Hlen.
    unfold ids in Hlen. rewrite !length_map, length_seq in Hlen. lia. }
  apply ListDec.not_NoDup in Hdup.
  2:{ intros x y. destruct (string_dec x y); [left | right]; assumption. }
  destruct Hdup as (s & l1 & l2 & l3 & Hmap).
  apply map_eq_app in Hmap. destruct Hmap as (i1 & rest & Hsplit & _ & Hrest).
  apply map_eq_cons in Hrest. destruct Hrest as (id1 & rest' & -> & H1 & Hrest).
  apply map_eq_app in Hrest. destruct Hrest as (i2 & rest'' & -> & _ & Hrest).
  apply map_eq_cons in Hrest. destruct Hrest as (id2 & i3 & -> & H2 & _).
  exists id1, id2. split; [|unfold nameOf in H1, H2; congruence].
  intros ->. rewrite Hsplit in Hids.
  apply NoDup_remove_2 in Hids. apply Hids.
  apply in_or_app. right. apply in_or_app. right. now left.
Qed.



(** ** Hook registration *)

Section Hooks.

Context {F : Framework}.

(** Forwarding to the collaborator respects equality of what is forwarded. *)
Lemma on_extensible_ext (this : Environment)
    (f g : ExtensibleBase -> result ExtensibleBase) :
  (forall x : ExtensibleBase, f x = g x) ->
  on_extensible this f = on_extensible this g.
Proof.
  intros H. unfold on_extensible.
  destruct (extensible this) as [x|]; [|reflexivity].
  now rewrite H.
Qed.

(** C8. Each of the seven named hook registrations of an environment gives
    what [on] gives at that registration's action point, for every event
    destination and options: the same exception, or the same environment
    holding the collaborator in the same state.  The collaborator's own named
    registrations are assumed to be its generic one at the fixed action
    point. *)
Theorem wrapper_is_on (actionPoint : ActionPoint) (this : Environment)
    (eventDestination : IEventDestination)
    (options : option ExtensionOptions) :
  wrappers_fix_action_point ->
  wrapper actionPoint this eventDestination options
  = on this actionPoint eventDestination options.
Proof.
  intros Hlaw. unfold on.
  destruct actionPoint; cbn [wrapper];
    [ unfold preCreateHostedConfigurationVersion
    | unfold preStartDeployment
    | unfold onDeploymentStart
    | unfold onDeploymentStep
    | unfold onDeploymentBaking
    | unfold onDeploymentComplete
    | unfold onDeploymentRolledBack ];
    apply on_extensible_ext; intros x;
    match goal with
    | |- _ = ExtensibleBase_on ?ap _ _ _ => exact (Hlaw ap eventDestination options x)
    end.
Qed.

End Hooks.

Lemma wrapper_is_on_witness :
  @wrapper Sample.cdk ON_DEPLOYMENT_BAKING Built.environment
    "arn:aws:lambda:us-east-1:123456789012:function:hook" None
  = @on Sample.cdk Built.environment ON_DEPLOYMENT_BAKING
      "arn:aws:lambda:us-east-1:123456789012:function:hook" None.
Proof.
  apply (@wrapper_is_on Sample.cdk ON_DEPLOYMENT_BAKING Built.environment
           "arn:aws:lambda:us-east-1:123456789012:function:hook" None).
  intros [] eventDestination options x; reflexivity.
Defined.

(** On a constructed environment the hook is recorded with its action
    point. *)
Example onDeploymentBaking_recorded :
  option_map Cdk.hooks
    (match @onDeploymentBaking Sample.cdk Built.environment
             "arn:aws:lambda:us-east-1:123456789012:function:hook" None with
     | Ok e => extensible e
     | Throw _ => None
     end)
  = Some [(ON_DEPLOYMENT_BAKING,
           "arn:aws:lambda:us-east-1:123456789012:function:hook", None)].
Proof. reflexivity. Qed.

(** An imported environment has no [extensible]: the named registration and
    [on] both end in a [TypeError]. *)
Example imported_hooks_throw :
  @preStartDeployment Sample.cdk (importedByArn "abc123" "def456" Sample.arn)
    "arn:aws:lambda:us-east-1:123456789012:function:hook" None
  = Throw TypeError
  /\ @on Sample.cdk (importedByArn "abc123" "def456" Sample.arn)
       PRE_START_DEPLOYMENT
       "arn:aws:lambda:us-east-1:123456789012:function:hook" None
     = Throw TypeError.
Proof. split; reflexivity. Qed.

(** ** More on importing by ARN *)

Section MoreImportByArn.

Context {F : Framework}.

Lemma concat_cons (sep x y : string) (l : list string) :
  String.concat sep (x :: y :: l) = x +++ sep +++ String.concat sep (y :: l).
Proof. reflexivity. Qed.

(** Joining the parts of a split gives the string back. *)
Lemma concat_split (sep : ascii) (s : string) :
  String.concat (String sep "") (split sep s) = s.
Proof.
  induction s as [|c rest IH]; [reflexivity|].
  cbn [split]. destruct (Ascii.eqb c sep) eqn:Hc.
  - apply Ascii.eqb_eq in Hc. subst c.
    destruct (split sep rest) as [|part parts] eqn:Hparts.
    + now apply split_nonempty in Hparts.
    + rewrite concat_cons, IH. reflexivity.
  - destruct (split sep rest) as [|part [|part' parts]] eqn:Hparts.
    + now apply split_nonempty in Hparts.
    + rewrite <- IH. reflexivity.
    + rewrite <- IH. reflexivity.
Qed.

(** No part of a split holds the separator. *)
Lemma split_parts_without_separator (sep : ascii) (s : string) :
  Forall (fun part => occurs sep part = false) (split sep s).
Proof.
  induction s as [|c rest IH]; cbn [split].
  - repeat constructor.
  - destruct (Ascii.eqb c sep) eqn:Hc.
    + constructor; [reflexivity | exact IH].
    + destruct (split sep rest) as [|part parts]; [repeat constructor; cbn; now rewrite Hc|].
      inversion IH as [|? ? Hpart Hparts]; subst.
      constructor; [cbn; now rewrite Hc, Hpart | exact Hparts].
Qed.

Lemma split_three_parts (rn a m e : string) :
  split slash rn = [a; m; e] ->
  rn = a +++ "/" +++ m +++ "/" +++ e
  /\ occurs slash a = false /\ occurs slash m = false
  /\ occurs slash e = false.
Proof.
  intros H.
  pose proof (concat_split slash rn) as Hjoin.
  pose proof (split_parts_without_separator slash rn) as Hfree.
  rewrite H in Hjoin, Hfree. cbn [String.concat] in Hjoin.
  inversion Hfree as [|? ? Ha Hfree']; subst.
  inversion Hfree' as [|? ? Hm Hfree'']; subst.
  inversion Hfree'' as [|? ? He _]; subst.
  repeat split; try assumption; try (symmetry; exact Hjoin).
Qed.

Lemma three_parts_split (a m e : string) :
  occurs slash a = false -> occurs slash m = false ->
  occurs slash e = false ->
  split slash (a +++ "/" +++ m +++ "/" +++ e) = [a; m; e].
Proof.
  intros Ha Hm He.
  change (a +++ "/" +++ m +++ "/" +++ e)
    with (a +++ String slash (m +++ String slash e)).
  rewrite (split_at_separator _ _ _ Ha), (split_at_separator _ _ _ Hm).
  now rewrite (split_without_separator _ _ He).
Qed.

(** X3. For an ARN the core parses (the [Resource] base constructor
    returning): the import returns exactly when the resource name reads
    [A/M/E] with no [/] inside [A], [M] or [E] and with [A] and [E] not
    empty. *)
Theorem fromEnvironmentArn_returns_iff (scope : Path) (id arn : string)
    (parsedArn : ArnComponents.t) (w : World) :
  splitArn scope arn SLASH_RESOURCE_NAME = Ok parsedArn ->
  Resource_new (tree w) scope id (ResourceProps.mk None (Some arn)) = Ok tt ->
  (exists (environment : Environment) (w' : World),
     fromEnvironmentArn scope id arn w = (Ok environment, w'))
  <->
  (exists A middle E : string,
     ArnComponents.resourceName parsedArn
       = Some (A +++ "/" +++ middle +++ "/" +++ E)
     /\ A <> "" /\ E <> ""
     /\ occurs slash A = false /\ occurs slash middle = false
     /\ occurs slash E = false).
Proof.
  intros Hsplit Hctor. split.
  - intros (environment & w' & Hrun).
    rewrite (fromEnvironmentArn_unfold _ _ _ _ _ Hsplit) in Hrun.
    destruct (ArnComponents.resourceName parsedArn) as [rn|];
      [|discriminate Hrun].
    destruct (rn =? "")%string; [discriminate Hrun|].
    destruct (split slash rn) as [|a [|m [|e [|x rest]]]] eqn:Hparts;
      try discriminate Hrun.
    destruct (a =? "")%string eqn:Ha; [discriminate Hrun|].
    destruct (e =? "")%string eqn:He; [discriminate Hrun|].
    apply String.eqb_neq in Ha, He.
    destruct (split_three_parts _ _ _ _ Hparts) as (-> & Hfa & Hfm & Hfe).
    exists a, m, e. repeat split; assumption.
  - intros (A & middle & E & Hrn & HA & HE & HfA & Hfm & HfE).
    eexists. eexists.
    exact (fromEnvironmentArn_three_parts scope id arn parsedArn _ A middle E
             w Hsplit Hrn (three_parts_split _ _ _ HfA Hfm HfE) HA HE Hctor).
Qed.

(** X4. Whatever the core is, an import by ARN that returned has parsed a
    resource name [A/M/E]: the environment's two ids are [A] and [E], they
    are not empty and hold no [/]; its ARN is the input string; it knows no
    application, name, description or monitors and has no [extensible]; and
    the one construct it has added is its own, created with
    [environmentFromArn] the input string. *)
Theorem fromEnvironmentArn_returned (scope : Path) (id arn : string)
    (w w' : World) (environment : Environment) :
  fromEnvironmentArn scope id arn w = (Ok environment, w') ->
  exists (parsedArn : ArnComponents.t) (middle : string),
    splitArn scope arn SLASH_RESOURCE_NAME = Ok parsedArn
    /\ ArnComponents.resourceName parsedArn
       = Some (applicationId environment +++ "/" +++ middle +++ "/"
               +++ environmentId environment)
    /\ applicationId environment <> ""
    /\ environmentId environment <> ""
    /\ occurs slash (applicationId environment) = false
    /\ occurs slash (environmentId environment) = false
    /\ environment
       = mkEnvironment None (applicationId environment) None None None
           (environmentId environment) arn None
    /\ w' = mkWorld
              (tree w ++ [ResourceNode scope id
                            (ResourceProps.mk None (Some arn))])
              (environments w).
Proof.
  intros Hrun.
  destruct (splitArn scope arn SLASH_RESOURCE_NAME) as [parsedArn|e0] eqn:Hsplit.
  2:{ rewrite (fromEnvironmentArn_unparsed _ _ _ _ _ Hsplit) in Hrun.
      discriminate Hrun. }
  rewrite (fromEnvironmentArn_unfold _ _ _ _ _ Hsplit) in Hrun.
  destruct (ArnComponents.resourceName parsedArn) as [rn|] eqn:Hrn;
    [|discriminate Hrun].
  destruct (rn =? "")%string; [discriminate Hrun|].
  destruct (split slash rn) as [|a [|m [|e [|x rest]]]] eqn:Hparts;
    try discriminate Hrun.
  destruct (a =? "")%string eqn:Ha; [discriminate Hrun|].
  destruct (e =? "")%string eqn:He; [discriminate Hrun|].
  apply String.eqb_neq in Ha, He. cbn [orb] in Hrun.
  unfold bind, new_Import, construct in Hrun.
  destruct (Resource_new (tree w) scope id _) as [[]|e1]; [|discriminate Hrun].
  unfold ret, importedByArn in Hrun. injection Hrun as <- <-.
  destruct (split_three_parts _ _ _ _ Hparts) as (-> & Hfa & Hfm & Hfe).
  exists parsedArn, m. cbn [applicationId environmentId].
  repeat split; assumption.
Qed.

(** X10. Which error a refused ARN gets: with the resource name absent or
    empty, the message that ends in the resource name as a template prints
    it ([undefined] when absent); with a resource name of the wrong shape,
    the message about the missing parameters. *)
Theorem fromEnvironmentArn_error (scope : Path) (id arn : string)
    (parsedArn : ArnComponents.t) (w : World) :
  splitArn scope arn SLASH_RESOURCE_NAME = Ok parsedArn ->
  malformed parsedArn ->
  fromEnvironmentArn scope id arn w
  = (Throw (Error
       (if falsy (ArnComponents.resourceName parsedArn)
        then "Missing required /$/{applicationId}/environment//$/{environmentId} from environment ARN: "
             +++ match ArnComponents.resourceName parsedArn with
                 | Some rn => rn
                 | None => "undefined"
                 end
        else "Missing required parameters for environment ARN: format should be /$/{applicationId}/environment//$/{environmentId}")),
     w).
Proof.
  intros Hsplit Hbad.
  rewrite (fromEnvironmentArn_unfold _ _ _ _ _ Hsplit).
  unfold malformed in Hbad.
  destruct (ArnComponents.resourceName parsedArn) as [rn|]; [|reflexivity].
  cbn [falsy]. destruct (rn =? "")%string; [reflexivity|].
  cbv zeta in Hbad.
  destruct (split slash rn) as [|a [|m [|e [|x rest]]]]; try reflexivity.
  cbn [nth List.length] in Hbad.
  destruct Hbad as [Hlen | [Hempty | Hempty]].
  - now contradiction Hlen.
  - subst a. reflexivity.
  - subst e. destruct (a =? "")%string; reflexivity.
Qed.

End MoreImportByArn.

Lemma fromEnvironmentArn_returns_iff_witness :
  (exists (environment : @Environment Sample.cdk) (w' : @World Sample.cdk),
     fromEnvironmentArn ["Stack"] "Imported" Sample.arn Sample.empty
     = (Ok environment, w'))
  <->
  (exists A middle E : string,
     ArnComponents.resourceName Sample.parsed
       = Some (A +++ "/" +++ middle +++ "/" +++ E)
     /\ A <> "" /\ E <> ""
     /\ occurs slash A = false /\ occurs slash middle = false
     /\ occurs slash E = false).
Proof.
  apply (@fromEnvironmentArn_returns_iff Sample.cdk ["Stack"] "Imported"
           Sample.arn Sample.parsed Sample.empty); reflexivity.
Defined.

Lemma fromEnvironmentArn_returned_witness :
  exists (parsedArn : ArnComponents.t) (middle : string),
    @splitArn Sample.cdk ["Stack"] Sample.arn SLASH_RESOURCE_NAME = Ok parsedArn
    /\ ArnComponents.resourceName parsedArn
       = Some ("abc123" +++ "/" +++ middle +++ "/" +++ "def456")
    /\ "abc123" <> ""
    /\ "def456" <> ""
    /\ occurs slash "abc123" = false
    /\ occurs slash "def456" = false
    /\ @importedByArn Sample.cdk "abc123" "def456" Sample.arn
       = mkEnvironment None "abc123" None None None "def456" Sample.arn None
    /\ mkWorld [ResourceNode ["Stack"] "Imported"
                  (ResourceProps.mk None (Some Sample.arn))] []
       = mkWorld
           (tree Sample.empty
            ++ [ResourceNode ["Stack"] "Imported"
                  (ResourceProps.mk None (Some Sample.arn))])
           (environments Sample.empty).
Proof.
  apply (@fromEnvironmentArn_returned Sample.cdk ["Stack"] "Imported"
           Sample.arn Sample.empty
           (mkWorld [ResourceNode ["Stack"] "Imported"
                       (ResourceProps.mk None (Some Sample.arn))] [])
           (importedByArn "abc123" "def456" Sample.arn)).
  reflexivity.
Defined.

Lemma fromEnvironmentArn_error_witness :
  @fromEnvironmentArn Sample.cdk ["Stack"] "Imported" Sample.arn_short
    Sample.empty
  = (Throw (Error
       (if falsy (ArnComponents.resourceName Sample.parsed_short)
        then "Missing required /$/{applicationId}/environment//$/{environmentId} from environment ARN: "
             +++ match ArnComponents.resourceName Sample.parsed_short with
                 | Some rn => rn
                 | None => "undefined"
                 end
        else "Missing required parameters for environment ARN: format should be /$/{applicationId}/environment//$/{environmentId}")),
     Sample.empty).
Proof.
  apply (@fromEnvironmentArn_error Sample.cdk ["Stack"] "Imported"
           Sample.arn_short Sample.parsed_short Sample.empty).
  - reflexivity.
  - left. cbn. lia.
Defined.

(** ** More on the constructor *)

Section MoreConstructor.

Context {F : Framework}.

(** The constructor, stage by stage: each call into the core either ends the
    construction with its exception or lets it go on. *)
Lemma Environment_new_stages (scope : Path) (id : string)
    (props : EnvironmentProps.t) (w : World) :
  let this := scope ++ [id] in
  let app := EnvironmentProps.application props in
  let appId := IApplication.applicationId app in
  let super_props := ResourceProps.mk (EnvironmentProps.name props) None in
  Environment_new scope id props w =
    match Resource_new (tree w) scope id super_props with
    | Throw e => (Throw e, w)
    | Ok _ =>
        let w1 := mkWorld (tree w ++ [ResourceNode scope id super_props])
                    (environments w) in
        match resolvedName this props with
        | Throw e => (Throw e, w1)
        | Ok nm =>
            match mappedMonitors this (EnvironmentProps.monitors props) w1 with
            | (Throw e, w2) => (Throw e, w2)
            | (Ok cfn_monitors, w2) =>
                let descriptor :=
                  CfnEnvironmentProps.mk appId nm
                    (EnvironmentProps.description props) cfn_monitors in
                match CfnEnvironment_new (tree w2) this "Resource" descriptor with
                | Throw e => (Throw e, w2)
                | Ok ref =>
                    let w3 :=
                      mkWorld
                        (tree w2
                         ++ [CfnEnvironmentNode this "Resource" descriptor ref])
                        (environments w2) in
                    match formatArn this (environmentArnComponents appId ref) with
                    | Throw e => (Throw e, w3)
                    | Ok arn =>
                        let environment :=
                          mkEnvironment (Some app) appId (Some nm)
                            (EnvironmentProps.description props)
                            (EnvironmentProps.monitors props) ref arn
                            (Some (ExtensibleBase_new scope arn nm)) in
                        (Ok environment,
                         mkWorld (tree w3)
                           (environments w3 ++ [(app, environment)]))
                    end
                end
            end
        end
    end.
Proof.
  intros this app appId super_props.
  unfold Environment_new. cbv zeta.
  fold this. fold app. fold appId. fold super_props.
  unfold bind at 1. unfold construct at 1.
  destruct (Resource_new (tree w) scope id super_props) as [[]|e];
    [|reflexivity].
  unfold bind at 1. rewrite or_else_call.
  fold (resolvedName this props).
  destruct (resolvedName this props) as [nm|e]; [|reflexivity].
  unfold bind at 1.
  change (match EnvironmentProps.monitors props with
          | Some l => l' <- map_from (monitorsProperty this) l 0 ;; ret (Some l')
          | None => ret None
          end)
    with (mappedMonitors this (EnvironmentProps.monitors props)).
  destruct (mappedMonitors this (EnvironmentProps.monitors props) _)
    as [[cfn_monitors|e] w2]; [|reflexivity].
  unfold bind at 1. unfold construct at 1.
  destruct (CfnEnvironment_new (tree w2) this "Resource" _) as [ref|e];
    [|reflexivity].
  unfold bind at 1. unfold call at 1.
  destruct (formatArn this _) as [arn|e]; reflexivity.
Qed.

(** The monitor mapping, by what it leaves in the tree: when it returns, the
    roles of the monitors without a truthy role ARN, one each and in the
    monitors' order, and entries that carry the monitors' alarm ARNs in
    order; when it throws, the roles it had made by then. *)
Lemma map_from_roles (this : Path) (l : list Monitor.t) :
  forall (k : nat) (w : World) (r : result (list MonitorsProperty.t))
         (w' : World),
    map_from (monitorsProperty this) l k w = (r, w') ->
    environments w' = environments w
    /\ exists added : list Construct,
         tree w' = tree w ++ added
         /\ match r with
            | Ok entries =>
                Forall2 (role_node this) (roleless_from k l) added
                /\ map MonitorsProperty.alarmArn entries = alarmArns l
            | Throw _ =>
                exists done rest : list (nat * Monitor.t),
                  roleless_from k l = done ++ rest
                  /\ rest <> []
                  /\ Forall2 (role_node this) done added
            end.
Proof.
  induction l as [|m l IH]; intros k w r w' Hrun.
  - injection Hrun as <- <-. split; [reflexivity|].
    exists []. rewrite app_nil_r. split; [reflexivity|].
    split; [constructor | reflexivity].
  - cbn [map_from] in Hrun. unfold bind at 1 in Hrun.
    cbn [roleless_from].
    destruct (falsy (givenRoleArn m)) eqn:Hf.
    + rewrite (monitorsProperty_synthesized _ _ _ _ Hf) in Hrun.
      cbv zeta in Hrun.
      destruct (Role_new (tree w) this (roleId k)
                  (alarmRoleProps (IAlarm.alarmArn (Monitor.alarm m))))
        as [roleArn|e] eqn:Hrole.
      2:{ injection Hrun as <- <-. split; [reflexivity|].
          exists []. rewrite app_nil_r. split; [reflexivity|].
          exists [], ((k, m) :: roleless_from (S k) l).
          split; [reflexivity|]. split; [discriminate | constructor]. }
      unfold bind at 1 in Hrun.
      destruct (map_from (monitorsProperty this) l (S k) _) as [r1 w1] eqn:Hrest.
      destruct (IH _ _ _ _ Hrest) as (Henv & added & Htree & Hr1).
      assert (Hnode : role_node this (k, m)
                (RoleNode this (roleId k)
                   (alarmRoleProps (IAlarm.alarmArn (Monitor.alarm m)))
                   roleArn)) by (now exists roleArn).
      destruct r1 as [ys|e]; injection Hrun as <- <-.
      * split; [exact Henv|]. eexists. split.
        { rewrite Htree. cbn [tree]. rewrite <- app_assoc. reflexivity. }
        destruct Hr1 as [Hroles Halarms]. split.
        -- constructor; assumption.
        -- cbn [map alarmArns MonitorsProperty.alarmArn].
           unfold alarmArns in Halarms. now rewrite Halarms.
      * split; [exact Henv|]. eexists. split.
        { rewrite Htree. cbn [tree]. rewrite <- app_assoc. reflexivity. }
        destruct Hr1 as (done & rest & Heq & Hrest' & Hdone).
        exists ((k, m) :: done), rest. rewrite Heq.
        split; [reflexivity|]. split; [exact Hrest'|].
        constructor; assumption.
    + destruct (monitorsProperty_given this m k w Hf) as (s & Hs & Hstep).
      rewrite Hstep in Hrun. unfold bind at 1 in Hrun.
      destruct (map_from (monitorsProperty this) l (S k) w) as [r1 w1] eqn:Hrest.
      destruct (IH _ _ _ _ Hrest) as (Henv & added & Htree & Hr1).
      destruct r1 as [ys|e]; injection Hrun as <- <-.
      * split; [exact Henv|]. exists added. split; [exact Htree|].
        destruct Hr1 as [Hroles Halarms]. split; [exact Hroles|].
        cbn [map alarmArns MonitorsProperty.alarmArn].
        unfold alarmArns in Halarms. now rewrite Halarms.
      * split; [exact Henv|]. exists added. split; [exact Htree|].
        exact Hr1.
Qed.

Lemma mappedMonitors_run (this : Path) (monitors : option (list Monitor.t))
    (w : World) (r : result (option (list MonitorsProperty.t))) (w' : World) :
  mappedMonitors this monitors w = (r, w') ->
  environments w' = environments w
  /\ exists added : list Construct,
       tree w' = tree w ++ added
       /\ match r with
          | Ok cfn_monitors =>
              Forall2 (role_node this)
                (roleless_from 0 (monitor_list monitors)) added
              /\ option_map (map MonitorsProperty.alarmArn) cfn_monitors
                 = option_map alarmArns monitors
          | Throw _ =>
              exists done rest : list (nat * Monitor.t),
                roleless_from 0 (monitor_list monitors) = done ++ rest
                /\ rest <> []
                /\ Forall2 (role_node this) done added
          end.
Proof.
  intros Hrun. destruct monitors as [l|]; cbn [mappedMonitors] in Hrun.
  - unfold bind in Hrun.
    destruct (map_from (monitorsProperty this) l 0 w) as [r0 w0] eqn:Hmap.
    destruct (map_from_roles _ _ _ _ _ _ Hmap) as (Henv & added & Htree & Hr0).
    destruct r0 as [entries|e]; injection Hrun as <- <-.
    + split; [exact Henv|]. exists added. split; [exact Htree|].
      destruct Hr0 as [Hroles Halarms]. split; [exact Hroles|].
      cbn [option_map]. now rewrite Halarms.
    + split; [exact Henv|]. exists added. split; [exact Htree|]. exact Hr0.
  - injection Hrun as <- <-. split; [reflexivity|].
    exists []. rewrite app_nil_r. split; [reflexivity|].
    split; [constructor | reflexivity].
Qed.

(** Everything a construction that returned has done. *)
Lemma Environment_new_returned (scope : Path) (id : string)
    (props : EnvironmentProps.t) (w w' : World) (environment : Environment) :
  Environment_new scope id props w = (Ok environment, w') ->
  let this := scope ++ [id] in
  let app := EnvironmentProps.application props in
  exists (nm : string) (roles : list Construct)
         (cfn_monitors : option (list MonitorsProperty.t))
         (ref arn : string),
    let descriptor :=
      CfnEnvironmentProps.mk (IApplication.applicationId app) nm
        (EnvironmentProps.description props) cfn_monitors in
    (exists w1 w2 : World,
       mappedMonitors this (EnvironmentProps.monitors props) w1
       = (Ok cfn_monitors, w2))
    /\ resolvedName this props = Ok nm
    /\ Forall2 (role_node this)
         (roleless_from 0 (monitor_list (EnvironmentProps.monitors props)))
         roles
    /\ option_map (map MonitorsProperty.alarmArn) cfn_monitors
       = option_map alarmArns (EnvironmentProps.monitors props)
    /\ formatArn this
         (environmentArnComponents (IApplication.applicationId app) ref)
       = Ok arn
    /\ environment
       = mkEnvironment (Some app) (IApplication.applicationId app) (Some nm)
           (EnvironmentProps.description props)
           (EnvironmentProps.monitors props) ref arn
           (Some (ExtensibleBase_new scope arn nm))
    /\ tree w'
       = tree w
         ++ ResourceNode scope id
              (ResourceProps.mk (EnvironmentProps.name props) None)
            :: roles ++ [CfnEnvironmentNode this "Resource" descriptor ref].
Proof.
  intros Hrun this app.
  rewrite Environment_new_stages in Hrun. cbv zeta in Hrun.
  fold this in Hrun. fold app in Hrun.
  destruct (Resource_new (tree w) scope id _) as [[]|e]; [|discriminate Hrun].
  destruct (resolvedName this props) as [nm|e]; [|discriminate Hrun].
  destruct (mappedMonitors this (EnvironmentProps.monitors props) _)
    as [[cfn_monitors|e] w2] eqn:Hmap; [|discriminate Hrun].
  pose proof (ex_intro _ _ (ex_intro _ w2 Hmap)
              : exists w1 w2 : World,
                  mappedMonitors this (EnvironmentProps.monitors props) w1
                  = (Ok cfn_monitors, w2)) as Hmapped.
  destruct (mappedMonitors_run _ _ _ _ _ Hmap) as (_ & roles & Htree & Hroles & Halarms).
  destruct (CfnEnvironment_new (tree w2) this "Resource" _) as [ref|e];
    [|discriminate Hrun].
  destruct (formatArn this _) as [arn|e] eqn:Harn; [|discriminate Hrun].
  injection Hrun as <- <-.
  exists nm, roles, cfn_monitors, ref, arn. cbv zeta.
  refine (conj Hmapped (conj eq_refl (conj Hroles (conj Halarms
            (conj Harn (conj eq_refl _)))))).
  cbn [tree]. rewrite Htree. cbn [tree]. rewrite <- !app_assoc. reflexivity.
Qed.

Lemma roleId_inj (i j : nat) : roleId i = roleId j -> i = j.
Proof.
  unfold roleId. cbn [String.append]. intros H.
  apply string_of_index_inj. now injection H.
Qed.

Lemma roleId_not_Resource (i : nat) : roleId i <> "Resource".
Proof. unfold roleId. cbn [String.append]. discriminate. Qed.

Lemma roleless_from_positions (l : list Monitor.t) :
  forall k : nat,
    Forall (fun p => k <= fst p) (roleless_from k l)
    /\ NoDup (map fst (roleless_from k l)).
Proof.
  induction l as [|m l IH]; intros k; cbn [roleless_from].
  - split; constructor.
  - destruct (IH (S k)) as [Hge Hnodup].
    assert (Hge' : Forall (fun p => k <= fst p) (roleless_from (S k) l)).
    { revert Hge. apply Forall_impl. intros p Hp. lia. }
    destruct (falsy (givenRoleArn m)); [|now split].
    split; [constructor; [cbn; lia | exact Hge']|].
    cbn [map fst]. constructor; [|exact Hnodup].
    intros Hin. apply in_map_iff in Hin. destruct Hin as (p & Hp & Hin).
    rewrite Forall_forall in Hge. specialize (Hge p Hin). lia.
Qed.

Lemma roleless_from_length (l : list Monitor.t) :
  forall k : nat,
    List.length (roleless_from k l)
    = List.length (filter (fun m => falsy (givenRoleArn m)) l).
Proof.
  induction l as [|m l IH]; intros k; cbn [roleless_from filter];
    [reflexivity|].
  destruct (falsy (givenRoleArn m)); cbn [List.length]; now rewrite IH.
Qed.

Lemma role_nodes_ids (this : Path) (ps : list (nat * Monitor.t))
    (roles : list Construct) :
  Forall2 (role_node this) ps roles ->
  map construct_id roles = map (fun p => roleId (fst p)) ps
  /\ Forall (fun node => construct_scope node = this) roles.
Proof.
  induction 1 as [|p node ps roles [roleArn ->] _ [IHids IHscope]].
  - split; constructor.
  - split; [cbn; now rewrite IHids | constructor; [reflexivity | exact IHscope]].
Qed.


(** X5. The descriptor of a construction that returned is the last
    construct created, under the id [Resource] of the environment, and it
    agrees with the environment and the props: the application id is the
    application's, the name is the environment's name, the description is
    the one given, and the monitors are left out exactly when the props
    leave them out, else as many as given with the same alarm ARNs in the
    same order. *)
Theorem Environment_new_descriptor (scope : Path) (id : string)
    (props : EnvironmentProps.t) (w w' : World) (environment : Environment) :
  Environment_new scope id props w = (Ok environment, w') ->
  exists (before : list Construct) (descriptor : CfnEnvironmentProps.t),
    tree w'
    = before ++ [CfnEnvironmentNode (scope ++ [id]) "Resource" descriptor
                   (environmentId environment)]
    /\ CfnEnvironmentProps.applicationId descriptor
       = IApplication.applicationId (EnvironmentProps.application props)
    /\ applicationId environment
       = CfnEnvironmentProps.applicationId descriptor
    /\ name environment = Some (CfnEnvironmentProps.name descriptor)
    /\ CfnEnvironmentProps.description descriptor
       = EnvironmentProps.description props
    /\ option_map (map MonitorsProperty.alarmArn)
         (CfnEnvironmentProps.monitors descriptor)
       = option_map alarmArns (EnvironmentProps.monitors props)
    /\ monitors environment = EnvironmentProps.monitors props.
Proof.
  intros Hrun.
  destruct (Environment_new_returned _ _ _ _ _ _ Hrun)
    as (nm & roles & cfn_monitors & ref & arn & H).
  cbv zeta in H. destruct H as (_ & _ & _ & Halarms & _ & -> & Htree).
  eexists. eexists. split.
  { rewrite Htree. rewrite app_comm_cons, app_assoc. reflexivity. }
  cbn. repeat split. exact Halarms.
Qed.

(** X6. The constructs a construction that returned has added, in order:
    its own node, then one role for each monitor whose role ARN is falsy, in
    the monitors' order and each under the id of its monitor's position,
    then the [CfnEnvironment].  So there are as many roles as such monitors,
    and none when the monitors are left out. *)
Theorem Environment_new_roles (scope : Path) (id : string)
    (props : EnvironmentProps.t) (w w' : World) (environment : Environment) :
  Environment_new scope id props w = (Ok environment, w') ->
  exists (roles : list Construct) (descriptor : CfnEnvironmentProps.t),
    tree w'
    = tree w
      ++ ResourceNode scope id
           (ResourceProps.mk (EnvironmentProps.name props) None)
         :: roles
         ++ [CfnEnvironmentNode (scope ++ [id]) "Resource" descriptor
               (environmentId environment)]
    /\ Forall2 (role_node (scope ++ [id]))
         (roleless_from 0 (monitor_list (EnvironmentProps.monitors props)))
         roles
    /\ List.length roles
       = List.length
           (filter (fun monitor => falsy (givenRoleArn monitor))
              (monitor_list (EnvironmentProps.monitors props))).
Proof.
  intros Hrun.
  destruct (Environment_new_returned _ _ _ _ _ _ Hrun)
    as (nm & roles & cfn_monitors & ref & arn & H).
  cbv zeta in H. destruct H as (_ & _ & Hroles & _ & _ & -> & Htree).
  eexists. eexists. split; [exact Htree|]. split; [exact Hroles|].
  rewrite <- (Forall2_length Hroles). apply roleless_from_length.
Qed.

(** X7. The constructs a construction that returned has created under the
    environment (the roles and the [CfnEnvironment]) are its children and
    have pairwise different ids. *)
Theorem Environment_new_child_ids_distinct (scope : Path) (id : string)
    (props : EnvironmentProps.t) (w w' : World) (environment : Environment) :
  Environment_new scope id props w = (Ok environment, w') ->
  exists children : list Construct,
    tree w'
    = tree w
      ++ ResourceNode scope id
           (ResourceProps.mk (EnvironmentProps.name props) None)
         :: children
    /\ Forall (fun node => construct_scope node = scope ++ [id]) children
    /\ NoDup (map construct_id children).
Proof.
  intros Hrun.
  destruct (Environment_new_returned _ _ _ _ _ _ Hrun)
    as (nm & roles & cfn_monitors & ref & arn & H).
  cbv zeta in H. destruct H as (_ & _ & Hroles & _ & _ & _ & Htree).
  destruct (role_nodes_ids _ _ _ Hroles) as [Hids Hscopes].
  eexists. split; [exact Htree|]. split.
  - apply Forall_app. split; [exact Hscopes | now repeat constructor].
  - rewrite map_app, Hids. cbn [map construct_id]. apply NoDup_app.
    + rewrite <- (map_map fst roleId).
      apply Injective_map_NoDup; [intros i j; apply roleId_inj|].
      apply roleless_from_positions.
    + repeat constructor. intros [].
    + intros a Ha [<- | []]. apply in_map_iff in Ha.
      destruct Ha as (p & Hp & _). now apply roleId_not_Resource in Hp.
Qed.


(** X2. An environment that was constructed has its [extensible]: the
    collaborator made from the scope the environment was given (not from the
    environment itself), the environment's ARN and its name.  So [on] hands
    every registration to that collaborator: it returns when the collaborator
    does, with nothing but [extensible] changed, and throws only what the
    collaborator throws. *)
Theorem Environment_new_hooks_reach_collaborator (scope : Path) (id : string)
    (props : EnvironmentProps.t) (w w' : World) (environment : Environment) :
  Environment_new scope id props w = (Ok environment, w') ->
  exists nm : string,
    name environment = Some nm
    /\ extensible environment
       = Some (ExtensibleBase_new scope (environmentArn environment) nm)
    /\ forall (actionPoint : ActionPoint)
              (eventDestination : IEventDestination)
              (options : option ExtensionOptions),
         on environment actionPoint eventDestination options
         = match ExtensibleBase_on actionPoint eventDestination options
                   (ExtensibleBase_new scope (environmentArn environment) nm)
           with
           | Ok x =>
               Ok (mkEnvironment (application environment)
                     (applicationId environment) (name environment)
                     (description environment) (monitors environment)
                     (environmentId environment) (environmentArn environment)
                     (Some x))
           | Throw e => Throw e
           end.
Proof.
  intros Hrun.
  destruct (Environment_new_returned _ _ _ _ _ _ Hrun)
    as (nm & roles & cfn_monitors & ref & arn & H).
  cbv zeta in H. destruct H as (_ & _ & _ & _ & _ & -> & _).
  exists nm. repeat split.
Qed.

Lemma map_from_role_arns (this : Path) (l : list Monitor.t) :
  role_arns_nonempty ->
  forall (k : nat) (w w' : World) (entries : list MonitorsProperty.t),
    map_from (monitorsProperty this) l k w = (Ok entries, w') ->
    Forall (fun entry => MonitorsProperty.alarmRoleArn entry <> "") entries.
Proof.
  intros Hnonempty.
  induction l as [|m l IH]; intros k w w' entries Hrun.
  - injection Hrun as <- _. constructor.
  - cbn [map_from] in Hrun. unfold bind at 1 in Hrun.
    destruct (falsy (givenRoleArn m)) eqn:Hf.
    + rewrite (monitorsProperty_synthesized _ _ _ _ Hf) in Hrun.
      cbv zeta in Hrun.
      destruct (Role_new (tree w) this (roleId k) _) as [roleArn|e] eqn:Hrole;
        [|discriminate Hrun].
      unfold bind at 1 in Hrun.
      destruct (map_from (monitorsProperty this) l (S k) _)
        as [[ys|e] w1] eqn:Hrest; [|discriminate Hrun].
      injection Hrun as <- _. constructor; [|exact (IH _ _ _ _ Hrest)].
      exact (Hnonempty _ _ _ _ _ Hrole).
    + destruct (monitorsProperty_given this m k w Hf) as (s & Hs & Hstep).
      rewrite Hstep in Hrun. unfold bind at 1 in Hrun.
      destruct (map_from (monitorsProperty this) l (S k) w)
        as [[ys|e] w1] eqn:Hrest; [|discriminate Hrun].
      injection Hrun as <- _. constructor; [|exact (IH _ _ _ _ Hrest)].
      cbn [MonitorsProperty.alarmRoleArn]. intros ->.
      rewrite Hs in Hf. discriminate Hf.
Qed.

(** X11. Where the name of a constructed environment comes from, whatever
    the name generator is: a given name that is not the empty string is
    taken as it is; otherwise the name is what
    [Names.uniqueResourceName] answers for the environment itself with
    [maxLength] 64 and separator [-].  Either way the [Resource] base
    constructor was handed the given name as [physicalName], not the
    generated one. *)
Theorem Environment_new_name_source (scope : Path) (id : string)
    (props : EnvironmentProps.t) (w w' : World) (environment : Environment) :
  Environment_new scope id props w = (Ok environment, w') ->
  exists nm : string,
    name environment = Some nm
    /\ ((EnvironmentProps.name props = Some nm /\ nm <> "")
        \/ (falsy (EnvironmentProps.name props) = true
            /\ uniqueResourceName (scope ++ [id])
                 (UniqueResourceNameOptions.mk 64 "-") = Ok nm))
    /\ In (ResourceNode scope id
             (ResourceProps.mk (EnvironmentProps.name props) None))
         (tree w').
Proof.
  intros Hrun.
  destruct (Environment_new_returned _ _ _ _ _ _ Hrun)
    as (nm & roles & cfn_monitors & ref & arn & H).
  cbv zeta in H. destruct H as (_ & Hname & _ & _ & _ & -> & Htree).
  exists nm. split; [reflexivity|]. split.
  - unfold resolvedName in Hname.
    destruct (EnvironmentProps.name props) as [s|]; [|now right].
    destruct (s =? "")%string eqn:Hs.
    + right. split; [exact Hs | exact Hname].
    + left. injection Hname as <-. split; [reflexivity|].
      now apply String.eqb_neq.
  - rewrite Htree. apply in_or_app. right. now left.
Qed.

(** X12. With an IAM collaborator that hands out no empty ARN, no entry of
    the descriptor of a construction that returned has an empty
    [alarmRoleArn]: a role ARN that is given and empty is replaced by the
    ARN of a synthesized role. *)
Theorem Environment_new_role_arns_nonempty (scope : Path) (id : string)
    (props : EnvironmentProps.t) (w w' : World) (environment : Environment) :
  role_arns_nonempty ->
  Environment_new scope id props w = (Ok environment, w') ->
  exists (before : list Construct) (descriptor : CfnEnvironmentProps.t),
    tree w'
    = before ++ [CfnEnvironmentNode (scope ++ [id]) "Resource" descriptor
                   (environmentId environment)]
    /\ forall entries : list MonitorsProperty.t,
         CfnEnvironmentProps.monitors descriptor = Some entries ->
         List.length entries
         = List.length (monitor_list (EnvironmentProps.monitors props))
         /\ Forall (fun entry => MonitorsProperty.alarmRoleArn entry <> "")
              entries.
Proof.
  intros Hnonempty Hrun.
  destruct (Environment_new_returned _ _ _ _ _ _ Hrun)
    as (nm & roles & cfn_monitors & ref & arn & H).
  cbv zeta in H.
  destruct H as ((w1 & w2 & Hmap) & _ & _ & Halarms & _ & -> & Htree).
  eexists. eexists. split.
  { rewrite Htree. rewrite app_comm_cons, app_assoc. reflexivity. }
  cbn [CfnEnvironmentProps.monitors]. intros entries ->.
  destruct (EnvironmentProps.monitors props) as [l|];
    cbn [mappedMonitors] in Hmap; [|discriminate Hmap].
  unfold bind in Hmap.
  destruct (map_from (monitorsProperty (scope ++ [id])) l 0 w1)
    as [[ys|e] w0] eqn:Hrest; [|discriminate Hmap].
  injection Hmap as <- _. split.
  - cbn [option_map] in Halarms. injection Halarms as Halarms.
    apply (f_equal (@List.length string)) in Halarms.
    unfold alarmArns in Halarms. rewrite !length_map in Halarms.
    exact Halarms.
  - exact (map_from_role_arns _ _ Hnonempty _ _ _ _ Hrest).
Qed.

End MoreConstructor.

(** ** More on the import paths and the round trip *)

Section MoreImports.

Context {F : Framework}.

(** What an import by attributes that returned has done. *)
Lemma fromEnvironmentAttributes_returned (scope : Path) (id : string)
    (attr : EnvironmentAttributes.t) (w w' : World)
    (environment : Environment) :
  fromEnvironmentAttributes scope id attr w = (Ok environment, w') ->
  exists arn : string,
    formatArn scope
      (environmentArnComponents
         (IApplication.applicationId (EnvironmentAttributes.application attr))
         (EnvironmentAttributes.environmentId attr))
    = Ok arn
    /\ environment
       = mkEnvironment (Some (EnvironmentAttributes.application attr))
           (IApplication.applicationId (EnvironmentAttributes.application attr))
           (EnvironmentAttributes.name attr)
           (EnvironmentAttributes.description attr)
           (EnvironmentAttributes.monitors attr)
           (EnvironmentAttributes.environmentId attr) arn None
    /\ w' = mkWorld
              (tree w ++ [ResourceNode scope id
                            (ResourceProps.mk None (Some arn))])
              (environments w).
Proof.
  unfold fromEnvironmentAttributes. cbv zeta. unfold bind at 1, call.
  destruct (formatArn scope _) as [arn|e]; [|discriminate].
  unfold bind, new_Import, construct.
  destruct (Resource_new (tree w) scope id _) as [[]|e]; [|discriminate].
  unfold ret. intros [= <- <-]. exists arn. repeat split.
Qed.

Lemma fromEnvironmentArn_no_extensible (scope : Path) (id arn : string)
    (w w' : World) (environment : Environment) :
  fromEnvironmentArn scope id arn w = (Ok environment, w') ->
  extensible environment = None.
Proof.
  unfold fromEnvironmentArn, bind at 1, call.
  destruct (splitArn scope arn SLASH_RESOURCE_NAME) as [parsedArn|e];
    [|discriminate].
  destruct (ArnComponents.resourceName parsedArn) as [rn|]; [|discriminate].
  destruct (falsy (Some rn)); [discriminate|].
  cbv zeta. destruct (negb _ || _ || _); [discriminate|].
  unfold bind. destruct (new_Import scope id arn w) as [[[]|e] w1];
    [|discriminate].
  unfold ret. now intros [= <- _].
Qed.

(** X1. An imported environment cannot take hooks.  Neither import path
    assigns [extensible], so on the environment either of them returns, [on],
    each of the seven named registrations and [addExtension] throw a
    [TypeError], whatever they are given. *)
Theorem imported_environment_hooks_throw (scope : Path) (id arn : string)
    (attr : EnvironmentAttributes.t) (w w' : World)
    (environment : Environment) :
  fromEnvironmentArn scope id arn w = (Ok environment, w')
  \/ fromEnvironmentAttributes scope id attr w = (Ok environment, w') ->
  (forall (actionPoint : ActionPoint) (eventDestination : IEventDestination)
          (options : option ExtensionOptions),
     on environment actionPoint eventDestination options = Throw TypeError
     /\ wrapper actionPoint environment eventDestination options
        = Throw TypeError)
  /\ (forall extension : IExtension,
        addExtension environment extension = Throw TypeError).
Proof.
  intros Himport.
  assert (Hnone : extensible environment = None).
  { destruct Himport as [Hrun | Hrun].
    - exact (fromEnvironmentArn_no_extensible _ _ _ _ _ _ Hrun).
    - destruct (fromEnvironmentAttributes_returned _ _ _ _ _ _ Hrun)
        as (arn' & _ & -> & _). reflexivity. }
  split.
  - intros actionPoint eventDestination options. split.
    + unfold on, on_extensible. now rewrite Hnone.
    + destruct actionPoint; cbn [wrapper];
        [ unfold preCreateHostedConfigurationVersion
        | unfold preStartDeployment
        | unfold onDeploymentStart
        | unfold onDeploymentStep
        | unfold onDeploymentBaking
        | unfold onDeploymentComplete
        | unfold onDeploymentRolledBack ];
        unfold on_extensible; now rewrite Hnone.
  - intros extension. unfold addExtension, on_extensible. now rewrite Hnone.
Qed.

(** [split] goes through a separator. *)
Lemma split_app (sep : ascii) (s t : string) :
  split sep (s +++ String sep t) = split sep s ++ split sep t.
Proof.
  induction s as [|c rest IH]; cbn [String.append split].
  - now rewrite Ascii.eqb_refl.
  - destruct (Ascii.eqb c sep); rewrite IH; [reflexivity|].
    destruct (split sep rest) as [|part parts] eqn:Hparts;
      [now apply split_nonempty in Hparts | reflexivity].
Qed.

Lemma split_length_occurs (sep : ascii) (s : string) :
  occurs sep s = true -> 2 <= List.length (split sep s).
Proof.
  induction s as [|c rest IH]; cbn [occurs split]; [discriminate|].
  destruct (Ascii.eqb c sep); cbn [orb].
  - intros _. destruct (split sep rest) eqn:Hparts;
      [now apply split_nonempty in Hparts | cbn; lia].
  - intros H. specialize (IH H).
    destruct (split sep rest); [cbn in IH; lia | exact IH].
Qed.

Lemma split_length_positive (sep : ascii) (s : string) :
  1 <= List.length (split sep s).
Proof.
  destruct (split sep s) eqn:H; [now apply split_nonempty in H | cbn; lia].
Qed.

(** A resource name that is not empty and not of the accepted shape is
    refused with the message about the missing parameters. *)
Lemma fromEnvironmentArn_refused (scope : Path) (id arn : string)
    (parsedArn : ArnComponents.t) (rn : string) (w : World) :
  splitArn scope arn SLASH_RESOURCE_NAME = Ok parsedArn ->
  ArnComponents.resourceName parsedArn = Some rn ->
  rn <> "" ->
  List.length (split slash rn) <> 3
  \/ nth 0 (split slash rn) "" = "" \/ nth 2 (split slash rn) "" = "" ->
  fromEnvironmentArn scope id arn w
  = (Throw (Error missing_parameters_message), w).
Proof.
  intros Hsplit Hrn Hne Hbad.
  rewrite (fromEnvironmentArn_unfold _ _ _ _ _ Hsplit), Hrn.
  apply String.eqb_neq in Hne. rewrite Hne.
  destruct (split slash rn) as [|a [|m [|e [|x rest]]]]; try reflexivity.
  cbn [nth List.length] in Hbad.
  destruct Hbad as [Hlen | [Hempty | Hempty]].
  - now contradiction Hlen.
  - subst a. reflexivity.
  - subst e. destruct (a =? "")%string; reflexivity.
Qed.

Lemma environment_resource_name_parts (appId envId : string) :
  split slash (appId +++ "/environment/" +++ envId)
  = split slash appId ++ "environment" :: split slash envId.
Proof.
  change (appId +++ "/environment/" +++ envId)
    with (appId +++ String slash ("environment" +++ String slash envId)).
  now rewrite !split_app.
Qed.

Lemma environment_resource_name_nonempty (appId envId : string) :
  appId +++ "/environment/" +++ envId <> "".
Proof. destruct appId; discriminate. Qed.

(** X9. The round trip through both imports, by its outcome (the core
    formatting the ARN, reading back from it the resource name it was given,
    and the [Resource] base constructor returning both times): it never
    returns ids other than the ones given; it returns only for ids that are
    not empty and hold no [/]; for all other ids it throws the error about
    the missing parameters. *)
Theorem roundTrip_outcome (scope : Path) (id id' : string)
    (appId envId : string) (arn : string) (parsedArn : ArnComponents.t)
    (w : World) :
  formatArn scope (environmentArnComponents appId envId) = Ok arn ->
  splitArn scope arn SLASH_RESOURCE_NAME = Ok parsedArn ->
  ArnComponents.resourceName parsedArn
    = ArnComponents.resourceName (environmentArnComponents appId envId) ->
  Resource_new (tree w) scope id (ResourceProps.mk None (Some arn)) = Ok tt ->
  Resource_new
    (tree w ++ [ResourceNode scope id (ResourceProps.mk None (Some arn))])
    scope id' (ResourceProps.mk None (Some arn)) = Ok tt ->
  (forall ids : string * string,
     fst (roundTrip scope id id' appId envId w) = Ok ids ->
     ids = (appId, envId)
     /\ appId <> "" /\ envId <> ""
     /\ occurs slash appId = false /\ occurs slash envId = false)
  /\ (~ (appId <> "" /\ envId <> ""
         /\ occurs slash appId = false /\ occurs slash envId = false) ->
      fst (roundTrip scope id id' appId envId w)
      = Throw (Error "Missing required parameters for environment ARN: format should be /$/{applicationId}/environment//$/{environmentId}")).
Proof.
  intros Hformat Hsplit Hname Hctor Hctor'.
  set (w1 := mkWorld
               (tree w ++ [ResourceNode scope id
                             (ResourceProps.mk None (Some arn))])
               (environments w)).
  assert (Hrun : roundTrip scope id id' appId envId w
                 = (byArn <- fromEnvironmentArn scope id' arn ;;
                    ret (applicationId byArn, environmentId byArn)) w1).
  { unfold roundTrip, bind at 1, fromEnvironmentAttributes.
    cbv zeta. cbn [EnvironmentAttributes.application
                     EnvironmentAttributes.environmentId
                     IApplication.applicationId].
    unfold bind at 1, call. rewrite Hformat.
    unfold bind at 1. rewrite (new_Import_returns _ _ _ _ Hctor).
    reflexivity. }
  assert (Hgood : appId <> "" -> envId <> "" ->
                  occurs slash appId = false -> occurs slash envId = false ->
                  fst (roundTrip scope id id' appId envId w)
                  = Ok (appId, envId)).
  { intros Ha He Hfa Hfe. rewrite Hrun. unfold bind.
    rewrite (fromEnvironmentArn_three_parts scope id' arn parsedArn
               (appId +++ "/environment/" +++ envId) appId "environment"
               envId w1 Hsplit Hname
               (split_environment_resource_name _ _ Hfa Hfe) Ha He Hctor').
    reflexivity. }
  assert (Hbad : ~ (appId <> "" /\ envId <> ""
                    /\ occurs slash appId = false
                    /\ occurs slash envId = false) ->
                 fst (roundTrip scope id id' appId envId w)
                 = Throw (Error missing_parameters_message)).
  { intros Hnot. rewrite Hrun. unfold bind.
    rewrite (fromEnvironmentArn_refused scope id' arn parsedArn
               (appId +++ "/environment/" +++ envId) w1 Hsplit Hname
               (environment_resource_name_nonempty _ _)); [reflexivity|].
    rewrite environment_resource_name_parts.
    pose proof (split_length_positive slash appId) as Hla.
    pose proof (split_length_positive slash envId) as Hle.
    destruct (occurs slash appId) eqn:Hfa.
    { left. pose proof (split_length_occurs _ _ Hfa).
      rewrite length_app. cbn [List.length]. lia. }
    destruct (occurs slash envId) eqn:Hfe.
    { left. pose proof (split_length_occurs _ _ Hfe).
      rewrite length_app. cbn [List.length]. lia. }
    rewrite (split_without_separator _ _ Hfa),
            (split_without_separator _ _ Hfe).
    cbn [app nth]. right.
    destruct (string_dec appId "") as [Ha | Ha]; [now left|].
    destruct (string_dec envId "") as [He | He]; [now right|].
    exfalso. apply Hnot. now repeat split. }
  split; [|exact Hbad].
  intros ids Hids.
  destruct (string_dec appId "") as [Ha | Ha];
    [rewrite Hbad in Hids; [discriminate Hids | intros (H & _); now apply H]|].
  destruct (string_dec envId "") as [He | He];
    [rewrite Hbad in Hids;
     [discriminate Hids | intros (_ & H & _); now apply H]|].
  destruct (occurs slash appId) eqn:Hfa;
    [rewrite Hbad in Hids;
     [discriminate Hids | intros (_ & _ & H & _); discriminate H]|].
  destruct (occurs slash envId) eqn:Hfe;
    [rewrite Hbad in Hids;
     [discriminate Hids | intros (_ & _ & _ & H); discriminate H]|].
  rewrite (Hgood Ha He eq_refl eq_refl) in Hids.
  injection Hids as <-. now repeat split.
Qed.

End MoreImports.

(** ** The further statements on the sample constructions *)

Lemma imported_environment_hooks_throw_witness :
  (forall (actionPoint : ActionPoint)
          (eventDestination : @IEventDestination Sample.cdk)
          (options : option (@ExtensionOptions Sample.cdk)),
     on (importedByArn "abc123" "def456" Sample.arn) actionPoint
       eventDestination options = Throw TypeError
     /\ wrapper actionPoint (importedByArn "abc123" "def456" Sample.arn)
          eventDestination options = Throw TypeError)
  /\ (forall extension : @IExtension Sample.cdk,
        addExtension (importedByArn "abc123" "def456" Sample.arn) extension
        = Throw TypeError).
Proof.
  apply (@imported_environment_hooks_throw Sample.cdk ["Stack"] "Imported"
           Sample.arn
           (EnvironmentAttributes.mk Built.app1 "def456" None None None)
           Sample.empty
           (mkWorld [ResourceNode ["Stack"] "Imported"
                       (ResourceProps.mk None (Some Sample.arn))] [])
           (importedByArn "abc123" "def456" Sample.arn)).
  left. reflexivity.
Defined.

Lemma Environment_new_hooks_reach_collaborator_witness :
  exists nm : string,
    name Built.environment = Some nm
    /\ extensible Built.environment
       = Some (@ExtensibleBase_new Sample.cdk ["Stack"]
                 (environmentArn Built.environment) nm)
    /\ forall (actionPoint : ActionPoint)
              (eventDestination : @IEventDestination Sample.cdk)
              (options : option (@ExtensionOptions Sample.cdk)),
         on Built.environment actionPoint eventDestination options
         = match @ExtensibleBase_on Sample.cdk actionPoint eventDestination
                   options
                   (@ExtensibleBase_new Sample.cdk ["Stack"]
                      (environmentArn Built.environment) nm)
           with
           | Ok x =>
               Ok (mkEnvironment (application Built.environment)
                     (applicationId Built.environment)
                     (name Built.environment)
                     (description Built.environment)
                     (monitors Built.environment)
                     (environmentId Built.environment)
                     (environmentArn Built.environment) (Some x))
           | Throw e => Throw e
           end.
Proof.
  apply (@Environment_new_hooks_reach_collaborator Sample.cdk ["Stack"] "Env"
           Built.props Sample.empty Built.world Built.environment).
  reflexivity.
Defined.

Lemma Environment_new_descriptor_witness :
  exists (before : list Construct) (descriptor : CfnEnvironmentProps.t),
    tree Built.world
    = before ++ [CfnEnvironmentNode (["Stack"] ++ ["Env"]) "Resource"
                   descriptor (environmentId Built.environment)]
    /\ CfnEnvironmentProps.applicationId descriptor
       = IApplication.applicationId (EnvironmentProps.application Built.props)
    /\ applicationId Built.environment
       = CfnEnvironmentProps.applicationId descriptor
    /\ name Built.environment = Some (CfnEnvironmentProps.name descriptor)
    /\ CfnEnvironmentProps.description descriptor
       = EnvironmentProps.description Built.props
    /\ option_map (map MonitorsProperty.alarmArn)
         (CfnEnvironmentProps.monitors descriptor)
       = option_map alarmArns (EnvironmentProps.monitors Built.props)
    /\ monitors Built.environment = EnvironmentProps.monitors Built.props.
Proof.
  apply (@Environment_new_descriptor Sample.cdk ["Stack"] "Env"
           Built.props Sample.empty Built.world Built.environment).
  reflexivity.
Defined.

Lemma Environment_new_roles_witness :
  exists (roles : list Construct) (descriptor : CfnEnvironmentProps.t),
    tree Built.world
    = tree Sample.empty
      ++ ResourceNode ["Stack"] "Env"
           (ResourceProps.mk (EnvironmentProps.name Built.props) None)
         :: roles
         ++ [CfnEnvironmentNode (["Stack"] ++ ["Env"]) "Resource" descriptor
               (environmentId Built.environment)]
    /\ Forall2 (role_node (["Stack"] ++ ["Env"]))
         (roleless_from 0
            (monitor_list (EnvironmentProps.monitors Built.props)))
         roles
    /\ List.length roles
       = List.length
           (filter (fun monitor => falsy (givenRoleArn monitor))
              (monitor_list (EnvironmentProps.monitors Built.props))).
Proof.
  apply (@Environment_new_roles Sample.cdk ["Stack"] "Env"
           Built.props Sample.empty Built.world Built.environment).
  reflexivity.
Defined.

Lemma Environment_new_child_ids_distinct_witness :
  exists children : list Construct,
    tree Built.world
    = tree Sample.empty
      ++ ResourceNode ["Stack"] "Env"
           (ResourceProps.mk (EnvironmentProps.name Built.props) None)
         :: children
    /\ Forall (fun node => construct_scope node = ["Stack"] ++ ["Env"])
         children
    /\ NoDup (map construct_id children).
Proof.
  apply (@Environment_new_child_ids_distinct Sample.cdk ["Stack"] "Env"
           Built.props Sample.empty Built.world Built.environment).
  reflexivity.
Defined.


Lemma roundTrip_outcome_witness :
  (forall ids : string * string,
     fst (@roundTrip Sample.cdk ["Stack"] "ByAttributes" "ByArn"
            "team/abc123" "def456" Sample.empty) = Ok ids ->
     ids = ("team/abc123", "def456")
     /\ "team/abc123" <> "" /\ "def456" <> ""
     /\ occurs slash "team/abc123" = false /\ occurs slash "def456" = false)
  /\ (~ ("team/abc123" <> "" /\ "def456" <> ""
         /\ occurs slash "team/abc123" = false
         /\ occurs slash "def456" = false) ->
      fst (@roundTrip Sample.cdk ["Stack"] "ByAttributes" "ByArn"
             "team/abc123" "def456" Sample.empty)
      = Throw (Error "Missing required parameters for environment ARN: format should be /$/{applicationId}/environment//$/{environmentId}")).
Proof.
  apply (@roundTrip_outcome Sample.cdk ["Stack"] "ByAttributes" "ByArn"
           "team/abc123" "def456"
           "arn:aws:appconfig:us-east-1:123456789012:application/team/abc123/environment/def456"
           (ArnComponents.mk (Some "aws") "appconfig" (Some "us-east-1")
              (Some "123456789012") "application"
              (Some "team/abc123/environment/def456"))
           Sample.empty); reflexivity.
Defined.

Lemma Environment_new_name_source_witness :
  exists nm : string,
    name (fst (Built.unnamed "Env")) = Some nm
    /\ ((EnvironmentProps.name Built.props_unnamed = Some nm /\ nm <> "")
        \/ (falsy (EnvironmentProps.name Built.props_unnamed) = true
            /\ @uniqueResourceName Sample.cdk (["Stack"] ++ ["Env"])
                 (UniqueResourceNameOptions.mk 64 "-") = Ok nm))
    /\ In (ResourceNode ["Stack"] "Env"
             (ResourceProps.mk (EnvironmentProps.name Built.props_unnamed)
                None))
         (tree (snd (Built.unnamed "Env"))).
Proof.
  apply (@Environment_new_name_source Sample.cdk ["Stack"] "Env"
           Built.props_unnamed Sample.empty (snd (Built.unnamed "Env"))
           (fst (Built.unnamed "Env"))).
  reflexivity.
Defined.

Lemma Environment_new_role_arns_nonempty_witness :
  exists (before : list Construct) (descriptor : CfnEnvironmentProps.t),
    tree Built.world
    = before ++ [CfnEnvironmentNode (["Stack"] ++ ["Env"]) "Resource"
                   descriptor (environmentId Built.environment)]
    /\ forall entries : list MonitorsProperty.t,
         CfnEnvironmentProps.monitors descriptor = Some entries ->
         List.length entries
         = List.length (monitor_list (EnvironmentProps.monitors Built.props))
         /\ Forall (fun entry => MonitorsProperty.alarmRoleArn entry <> "")
              entries.
Proof.
  apply (@Environment_new_role_arns_nonempty Sample.cdk ["Stack"] "Env"
           Built.props Sample.empty Built.world Built.environment).
  - intros t scope id props roleArn H. injection H as <-. discriminate.
  - reflexivity.
Defined.
